(** * NYC Open Data pipeline: dataset transformer, storage layer and API handler

  A shallow embedding of [datasets/base.py], [datasets/ntas_2020/transformer.py],
  [src/ingestion/storage.py] and [src/api/routes.py], with the properties the
  specification states about them. *)

From Stdlib Require Import ZArith QArith Ascii String List Lia.
From stdpp Require Import base option list strings gmap pretty.

Open Scope string_scope.
Open Scope list_scope.
Set Warnings "-register-all,-clear-no-such-hyp".

(** ** Python text primitives used by the pipeline

  Column labels are Python [str] objects; they are modelled as [string] over
  the ASCII range, with the character classes of Python's [re] module and
  [str.lower] restricted to that range. *)
Module PyStr.

Definition code (c : ascii) : nat := nat_of_ascii c.

Definition is_upper (c : ascii) : bool :=
  (65 <=? code c)%nat && (code c <=? 90)%nat.

Definition is_lower (c : ascii) : bool :=
  (97 <=? code c)%nat && (code c <=? 122)%nat.

Definition is_digit (c : ascii) : bool :=
  (48 <=? code c)%nat && (code c <=? 57)%nat.

(** [\w]: letters, digits and the underscore. *)
Definition is_word (c : ascii) : bool :=
  is_upper c || is_lower c || is_digit c || (code c =? 95)%nat.

(** [\s]: the characters for which [str.isspace] holds:
    tab, line feed, vertical tab, form feed, carriage return,
    the four separators 0x1c-0x1f and the space. *)
Definition is_space (c : ascii) : bool :=
  ((9 <=? code c)%nat && (code c <=? 13)%nat)
  || ((28 <=? code c)%nat && (code c <=? 32)%nat).

Definition lower_char (c : ascii) : ascii :=
  if is_upper c then ascii_of_nat (code c + 32) else c.

(** [s.lower()] *)
Fixpoint lower (s : string) : string :=
  match s with
  | EmptyString => EmptyString
  | String c s' => String (lower_char c) (lower s')
  end.

(** [re.sub(r'[^\w\s]', '', s)] *)
Fixpoint strip_punct (s : string) : string :=
  match s with
  | EmptyString => EmptyString
  | String c s' =>
      if is_word c || is_space c then String c (strip_punct s')
      else strip_punct s'
  end.

(** [re.sub(r'\s+', '_', s)]: every maximal run of white space becomes one
    underscore.  [in_run] tells that the previous character was white space
    (and its underscore has been emitted). *)
Fixpoint collapse_ws_from (in_run : bool) (s : string) : string :=
  match s with
  | EmptyString => EmptyString
  | String c s' =>
      if is_space c
      then (if in_run then collapse_ws_from true s'
            else String "_" (collapse_ws_from true s'))
      else String c (collapse_ws_from false s')
  end.

Definition collapse_ws (s : string) : string := collapse_ws_from false s.

(** [s.startswith(p)] *)
Fixpoint startswith (p s : string) : bool :=
  match p, s with
  | EmptyString, _ => true
  | String a p', String b s' => if decide (a = b) then startswith p' s' else false
  | String _ _, EmptyString => false
  end.

(** [sep.join(parts)] *)
Fixpoint join (sep : string) (parts : list string) : string :=
  match parts with
  | [] => ""
  | [p] => p
  | p :: rest => p +:+ sep +:+ join sep rest
  end.



End PyStr.

(** ** Python values held in table cells, dictionaries and log records *)
Module Py.

(** A cell of a DataFrame or a value of a dictionary.  Numbers (int64 and
    float64 alike) are rationals; [VNaN] is the float not-a-number that
    pandas uses as its missing marker.  [VWkt] is a geoalchemy2
    [WKTElement], [VTime] a [datetime]. *)
Inductive value : Type :=
| VNone
| VNaN
| VBool (b : bool)
| VNum (q : Q)
| VStr (s : string)
| VList (l : list value)
| VDict (d : list (string * value))
| VWkt (wkt : string) (srid : Z)
| VTime (t : Z).

(** An ordered Python [dict] with string keys. *)
Definition dict : Type := list (string * value).

(** [bool(v)], the test behind [if v:] and [not v]. *)
Definition truthy (v : value) : bool :=
  match v with
  | VNone => false
  | VNaN => true
  | VBool b => b
  | VNum q => negb (Qnum q =? 0)%Z
  | VStr s => negb (bool_decide (s = ""))
  | VList l => negb (bool_decide (length l = 0%nat))
  | VDict d => negb (bool_decide (length d = 0%nat))
  | VWkt _ _ => true
  | VTime _ => true
  end.

(** [pd.isna(v)]: the nulls of a DataFrame. *)
Definition is_null (v : value) : bool :=
  match v with
  | VNone | VNaN => true
  | _ => false
  end.

(** [d.get(k)] as an option, first binding of the key. *)
Fixpoint dict_get {A : Type} (k : string) (d : list (string * A)) : option A :=
  match d with
  | [] => None
  | (k', v) :: d' => if decide (k' = k) then Some v else dict_get k d'
  end.

(** [d[k] = v]: an existing key keeps its position, a new key goes last. *)
Fixpoint dict_set {A : Type} (k : string) (v : A) (d : list (string * A))
  : list (string * A) :=
  match d with
  | [] => [(k, v)]
  | (k', v') :: d' =>
      if decide (k' = k) then (k, v) :: d' else (k', v') :: dict_set k v d'
  end.

(** The dictionary without the key [k]. *)
Fixpoint dict_del {A : Type} (k : string) (d : list (string * A)) : list (string * A) :=
  match d with
  | [] => []
  | (k', v) :: d' => if decide (k' = k) then dict_del k d' else (k', v) :: dict_del k d'
  end.

(** [list(d.keys())] *)
Definition dict_keys {A : Type} (d : list (string * A)) : list string := d.*1.

(** Exceptions.  [MissingColumns name missing] is the
    [ValueError(f"Missing required columns for {name}: {missing}")] of the
    base transformer; [Error msg] is any other [Exception] whose [str] is
    [msg]; [HTTPException] is FastAPI's. *)
Inductive exn : Type :=
| MissingColumns (dataset_name : string) (missing : gset string)
| Error (msg : string)
| HTTPException (status_code : Z) (detail : string).

Inductive level : Type := INFO | WARNING | ERROR.

(** One call of a module logger. *)
Definition log_entry : Type := (level * string)%type.

Inductive result (A : Type) : Type :=
| Ok (a : A)
| Raise (e : exn).
Global Arguments Ok {A} a.
Global Arguments Raise {A} e.

End Py.
Export Py.

(** ** pandas DataFrames

  A frame is its column labels, in order, and its rows; row [i] holds the
  cells of the columns position by position.  The operations are the ones
  the transformers use and are meant for labels without repetition. *)
Module Frame.

Record DataFrame : Type := mkFrame {
  columns : list string;
  rows : list (list value)
}.

(** [len(df)] *)
Definition len (df : DataFrame) : nat := length (rows df).

(** Every row has one cell per column. *)
Definition rectangular (df : DataFrame) : Prop :=
  Forall (fun r => length r = length (columns df)) (rows df).

(** [c in df.columns] *)
Definition has_column (c : string) (df : DataFrame) : bool :=
  bool_decide (c ∈ columns df).

(** One row as a record, as in [df.to_dict('records')]. *)
Definition record_of (names : list string) (r : list value) : dict := zip names r.

(** [df.to_dict('records')] *)
Definition to_records (df : DataFrame) : list dict :=
  map (record_of (columns df)) (rows df).

(** The cell of row [i] in column [c], if both exist. *)
Definition cell (df : DataFrame) (i : nat) (c : string) : option value :=
  r ← rows df !! i; dict_get c (record_of (columns df) r).

(** [df.rename(columns=mapping)]: labels found in the mapping are replaced,
    the others are kept. *)
Definition rename_label (mapping : list (string * string)) (c : string) : string :=
  default c (dict_get c mapping).

Definition rename (mapping : list (string * string)) (df : DataFrame) : DataFrame :=
  mkFrame (map (rename_label mapping) (columns df)) (rows df).

(** The cells of a row whose column label passes a test. *)
Fixpoint select_cells (keep : string -> bool) (names : list string) (r : list value)
  : list value :=
  match names, r with
  | n :: names', v :: r' =>
      if keep n then v :: select_cells keep names' r' else select_cells keep names' r'
  | _, _ => []
  end.

(** [df[[c for c in df.columns if keep(c)]]] *)
Definition select (keep : string -> bool) (df : DataFrame) : DataFrame :=
  mkFrame (filter (fun c => keep c = true) (columns df))
          (map (select_cells keep (columns df)) (rows df)).

(** The row with [f] applied to the cell of column [c]. *)
Fixpoint map_cell (c : string) (f : value -> value) (names : list string)
  (r : list value) : list value :=
  match names, r with
  | n :: names', v :: r' =>
      (if decide (n = c) then f v else v) :: map_cell c f names' r'
  | _, _ => r
  end.

(** [df[c] = df[c].map(f)] for an existing column [c]. *)
Definition map_column (c : string) (f : value -> value) (df : DataFrame) : DataFrame :=
  mkFrame (columns df) (map (map_cell c f (columns df)) (rows df)).

(** [df[c] = v] for a scalar [v]: an existing column is overwritten in
    place, a new one is appended as the last column. *)
Definition assign_scalar (c : string) (v : value) (df : DataFrame) : DataFrame :=
  if has_column c df
  then map_column c (fun _ => v) df
  else mkFrame (columns df ++ [c]) (map (fun r => r ++ [v]) (rows df)).

End Frame.
Export Frame.

(** ** The world the program runs in

  The database, the clock, the loggers and the calls made on the database
  driver are explicit state; what the libraries compute (pandas, json,
  shapely, SQLAlchemy, PostgreSQL, the settings module) is an interface. *)
Module Runtime.

(** One row of the [dataset_metadata] table, keyed by [dataset_id]. *)
Record meta_row : Type := mkMeta {
  m_dataset_name : option string;
  m_table_name : string;
  m_last_ingestion : Z;
  m_record_count : Z;
  m_status : string
}.

(** Committed contents of the PostgreSQL database: the data tables by name,
    and the [dataset_metadata] table when it has been created. *)
Record database : Type := mkDb {
  tables : gmap string (list dict);
  metadata : option (gmap string meta_row)
}.

(** Calls made on SQLAlchemy and pandas' SQL writer, oldest first. *)
Inductive event : Type :=
| EvCreateEngine (url : string)
| EvConnect
| EvExecute (sql : string) (params : dict)
| EvCommit
| EvClose
| EvDispose
| EvToSql (table : string) (if_exists : string) (nrows : nat).

(** The [DataStorage] instance: [self.connection_string] and [self.engine]
    ([None] until [get_engine] creates it). *)
Record DataStorage : Type := mkStorage {
  connection_string : string;
  engine : option string
}.

Record world : Type := mkWorld {
  logs : list log_entry;      (* records received by the loggers *)
  clock : Z;                  (* datetime.now() and CURRENT_TIMESTAMP *)
  db : database;              (* committed database state *)
  conn : option database;     (* the open connection's uncommitted view *)
  storage : DataStorage;
  trace : list event
}.

(** Behaviour of the libraries the repository calls. *)
Class External : Type := {
  (* pd.to_numeric on one element: its number, or None when it has none *)
  to_numeric_scalar : value -> option Q;
  json_loads : string -> result value;
  (* shapely: shape(geom).wkt *)
  shape_wkt : value -> result string;
  (* str() of a value that is not a str *)
  py_repr : value -> string;
  (* str() of a set of strings *)
  repr_set : gset string -> string;
  (* settings.config.database.get_connection_string() *)
  get_connection_string : result string;
  create_engine : string -> result unit;
  (* engine.connect(), given the calls made so far *)
  pg_connect : list event -> result unit;
  (* PostgreSQL executing one statement inside a transaction *)
  pg_execute : database -> string -> dict -> result database;
  (* conn.execute(query).scalar() *)
  pg_scalar : database -> string -> result value;
  (* DataFrame.to_sql(table, engine, if_exists=..., method='multi') *)
  pd_to_sql : DataFrame -> string -> string -> database -> result database
}.

(** Computations that read and change the world and may raise. *)
Definition M (A : Type) : Type := world -> result A * world.

Definition ret {A : Type} (a : A) : M A := fun w => (Ok a, w).

Definition bind {A B : Type} (m : M A) (k : A -> M B) : M B :=
  fun w =>
    match m w with
    | (Ok a, w') => k a w'
    | (Raise e, w') => (Raise e, w')
    end.

Definition raise {A : Type} (e : exn) : M A := fun w => (Raise e, w).

Definition lift {A : Type} (r : result A) : M A := fun w => (r, w).

Definition gets {A : Type} (f : world -> A) : M A := fun w => (Ok (f w), w).

Definition modify (f : world -> world) : M unit := fun w => (Ok tt, f w).

(** [try: m  except Exception as e: h e] *)
Definition try_except {A : Type} (m : M A) (h : exn -> M A) : M A :=
  fun w =>
    match m w with
    | (Ok a, w') => (Ok a, w')
    | (Raise e, w') => h e w'
    end.

(** [try: m  finally: c] *)
Definition try_finally {A : Type} (m : M A) (c : M unit) : M A :=
  fun w =>
    match m w with
    | (r, w') =>
        match c w' with
        | (Ok _, w'') => (r, w'')
        | (Raise e, w'') => (Raise e, w'')
        end
    end.

Declare Scope py_scope.
Delimit Scope py_scope with py.
Notation "x <- m ;; k" := (bind m (fun x => k))
  (at level 100, m at next level, right associativity) : py_scope.
Notation "m ;;; k" := (bind m (fun _ => k))
  (at level 100, right associativity) : py_scope.

(** [for x in xs: body x] *)
Fixpoint for_each {A : Type} (xs : list A) (body : A -> M unit) : M unit :=
  match xs with
  | [] => ret tt
  | x :: xs' => bind (body x) (fun _ => for_each xs' body)
  end.

(** [[f x for x in xs]] with an effectful [f] *)
Fixpoint map_m {A B : Type} (f : A -> M B) (xs : list A) : M (list B) :=
  match xs with
  | [] => ret []
  | x :: xs' => bind (f x) (fun y => bind (map_m f xs') (fun ys => ret (y :: ys)))
  end.

Definition set_logs (l : list log_entry) (w : world) : world :=
  mkWorld l (clock w) (db w) (conn w) (storage w) (trace w).
Definition set_db (d : database) (w : world) : world :=
  mkWorld (logs w) (clock w) d (conn w) (storage w) (trace w).
Definition set_conn (c : option database) (w : world) : world :=
  mkWorld (logs w) (clock w) (db w) c (storage w) (trace w).
Definition set_storage (s : DataStorage) (w : world) : world :=
  mkWorld (logs w) (clock w) (db w) (conn w) s (trace w).
Definition set_trace (t : list event) (w : world) : world :=
  mkWorld (logs w) (clock w) (db w) (conn w) (storage w) t.

(** [logger.info(msg)], [logger.warning(msg)], [logger.error(msg)] *)
Definition log (l : level) (msg : string) : M unit :=
  modify (fun w => set_logs (logs w ++ [(l, msg)]) w).

Definition emit (e : event) : M unit :=
  modify (fun w => set_trace (trace w ++ [e]) w).

(** [str(v)], as used by f-strings. *)
Definition py_str `{External} (v : value) : string :=
  match v with
  | VStr s => s
  | _ => py_repr v
  end.

(** [str(e)] for an exception [e]. *)
Definition exn_str `{External} (e : exn) : string :=
  match e with
  | MissingColumns name missing =>
      "Missing required columns for " +:+ name +:+ ": " +:+ repr_set missing
  | Error msg => msg
  | HTTPException code detail => pretty code +:+ ": " +:+ detail
  end.

(** [df[c] = df[c].apply(f)]: [f] runs on the cells of column [c], row by
    row. *)
Fixpoint apply_cell (c : string) (f : value -> M value) (names : list string)
  (r : list value) : M (list value) :=
  match names, r with
  | n :: names', v :: r' =>
      bind (if decide (n = c) then f v else ret v) (fun v' =>
      bind (apply_cell c f names' r') (fun rest => ret (v' :: rest)))
  | _, _ => ret r
  end.

Definition apply_column (c : string) (f : value -> M value) (df : DataFrame)
  : M DataFrame :=
  bind (map_m (apply_cell c f (columns df)) (rows df)) (fun rs =>
  ret (mkFrame (columns df) rs)).

End Runtime.
Export Runtime.
Open Scope py_scope.

(** ** Dataset configuration *)
Module Config.

(** Modelled from the spec: the configuration classes behind
    [self.config.data_schema] (the settings package) are not part of the
    sources.  A column declares its DDL type, whether it is nullable, an
    optional default, and the primary-key and required flags. *)
Record ColumnSchema : Type := mkColumn {
  col_type : string;
  nullable : bool;
  default_value : value;
  primary_key : bool;
  required : bool
}.

Record IndexSchema : Type := mkIndex {
  index_name : string;
  index_columns : list string
}.

(** Modelled from the spec: the Schema Descriptor held by the configuration. *)
Record DataSchema : Type := mkSchema {
  table_name : string;
  schema_columns : list (string * ColumnSchema);
  indexes : list IndexSchema;
  constraints : list string
}.

(** The schema dictionary handed to the storage layer.  The [constraints]
    and [indexes] keys are optional there. *)
Record schema_dict : Type := mkSchemaDict {
  sd_table_name : string;
  sd_columns : list (string * dict);
  sd_indexes : option (list IndexSchema);
  sd_constraints : option (list string)
}.

(** Modelled from the spec: [column.model_dump(by_alias=True)]. *)
Definition dump_column (c : ColumnSchema) : dict :=
  [("type", VStr (col_type c));
   ("nullable", VBool (nullable c));
   ("default", default_value c);
   ("primary_key", VBool (primary_key c));
   ("required", VBool (required c))].

(** Modelled from the spec: [data_schema.model_dump(by_alias=True)], a
    fresh dictionary at every call. *)
Definition model_dump (s : DataSchema) : schema_dict :=
  mkSchemaDict (table_name s)
               (map (fun '(name, c) => (name, dump_column c)) (schema_columns s))
               (Some (indexes s))
               (Some (constraints s)).

End Config.
Export Config.

(** ** [datasets/base.py]: [BaseDatasetTransformer] *)
Module Base.

Record Transformer : Type := mkTransformer {
  dataset_id : string;
  dataset_name : string;
  config : DataSchema
}.

(** [add_metadata]: both columns are set on a copy; the time stamp is read
    once, so every row gets the same one. *)
Definition add_metadata (self : Transformer) (df : DataFrame) : M DataFrame :=
  now <- gets clock ;;
  ret (assign_scalar "ingestion_timestamp" (VTime now)
         (assign_scalar "dataset_id" (VStr (dataset_id self)) df)).

Definition standardize_label (c : string) : string :=
  PyStr.collapse_ws (PyStr.strip_punct (PyStr.lower c)).


(** [set(required_columns) - set(df.columns)] *)
Definition missing_columns (present required : list string) : gset string :=
  list_to_set required ∖ list_to_set present.

(** [validate_required_columns] *)
Definition validate_required_columns (self : Transformer) (df : DataFrame)
  (required_columns : list string) : M unit :=
  let missing := missing_columns (columns df) required_columns in
  if decide (missing = ∅) then ret tt
  else raise (MissingColumns (dataset_name self) missing).

End Base.
Export Base.

(** ** [datasets/ntas_2020/transformer.py]: [Ntas2020Transformer] *)
Module Ntas2020.
Section WithExternal.
Context `{External}.

Definition column_mapping : list (string * string) :=
  [("borocode", "boro_code");
   ("boroname", "boro_name");
   ("countyfips", "county_fips");
   ("nta2020", "nta2020");
   ("ntaname", "nta_name");
   ("ntaabbrev", "nta_abbrev");
   ("ntatype", "nta_type");
   ("cdta2020", "cdta2020");
   ("cdtaname", "cdta_name");
   ("shape_leng", "shape_leng");
   ("shape_area", "shape_area");
   ("the_geom", "geom")].

Definition numeric_cols : list string := ["boro_code"; "shape_leng"; "shape_area"].

(** Columns injected by the SODA platform start with a colon. *)
Definition not_soda (c : string) : bool := negb (PyStr.startswith ":" c).

(** One element of [pd.to_numeric(series, errors='coerce')]. *)
Definition coerce_numeric (v : value) : value :=
  match to_numeric_scalar v with
  | Some q => VNum q
  | None => VNaN
  end.

(** The loop over [numeric_cols]. *)
Definition convert_numeric_columns (df : DataFrame) : DataFrame :=
  fold_left
    (fun df col => if has_column col df then map_column col coerce_numeric df else df)
    numeric_cols df.

(** [_convert_geometry] *)
Definition _convert_geometry (geom_data : value) : M value :=
  if negb (truthy geom_data) then ret VNone
  else
    try_except
      (geom_dict <- match geom_data with
                    | VStr s => lift (json_loads s)
                    | _ => ret geom_data
                    end ;;
       wkt <- lift (shape_wkt geom_dict) ;;
       ret (VWkt wkt 4326))
      (fun e =>
         log WARNING ("Failed to convert geometry: " +:+ exn_str e) ;;;
         ret VNone).

(** The columns the configuration marks required or primary key. *)
Definition required_cols (self : Transformer) : list string :=
  (filter (fun p => required p.2 || primary_key p.2 = true)
          (schema_columns (config self))).*1.

(** [transform] *)
Definition transform (self : Transformer) (df : DataFrame) : M DataFrame :=
  log INFO ("Transforming " +:+ pretty (len df) +:+ " NTA records") ;;;
  let df := rename column_mapping df in
  let df := select not_soda df in
  let df := convert_numeric_columns df in
  df <- (if has_column "geom" df
         then apply_column "geom" _convert_geometry df
         else ret df) ;;
  df <- add_metadata self df ;;
  validate_required_columns self df (required_cols self) ;;;
  ret df.

Definition dataset_id_column : dict :=
  [("type", VStr "VARCHAR(20)"); ("nullable", VBool false)].

Definition ingestion_timestamp_column : dict :=
  [("type", VStr "TIMESTAMP");
   ("default", VStr "CURRENT_TIMESTAMP");
   ("nullable", VBool false)].

(** [get_schema] *)
Definition get_schema (self : Transformer) : M schema_dict :=
  let schema := model_dump (config self) in
  let cols := dict_set "dataset_id" dataset_id_column (sd_columns schema) in
  let cols := dict_set "ingestion_timestamp" ingestion_timestamp_column cols in
  ret (mkSchemaDict (sd_table_name schema) cols
                    (sd_indexes schema) (sd_constraints schema)).


(** *** What [transform] computes, step by step

    The same pipeline with the logger taken out: the value and the warnings
    of one geometry conversion, and the frames between the steps. *)

(** The body of the [try] block of [_convert_geometry]. *)
Definition geometry_outcome (geom_data : value) : result string :=
  match geom_data with
  | VStr s =>
      match json_loads s with
      | Ok geom_dict => shape_wkt geom_dict
      | Raise e => Raise e
      end
  | _ => shape_wkt geom_data
  end.

Definition geometry_value (geom_data : value) : value :=
  if negb (truthy geom_data) then VNone
  else match geometry_outcome geom_data with
       | Ok wkt => VWkt wkt 4326
       | Raise _ => VNone
       end.

Definition geometry_warnings (geom_data : value) : list log_entry :=
  if negb (truthy geom_data) then []
  else match geometry_outcome geom_data with
       | Ok _ => []
       | Raise e => [(WARNING, "Failed to convert geometry: " +:+ exn_str e)]
       end.

(** The cells of column [c] in a row, left to right. *)
Fixpoint cells_of (c : string) (names : list string) (r : list value) : list value :=
  match names, r with
  | n :: names', v :: r' =>
      if decide (n = c) then v :: cells_of c names' r' else cells_of c names' r'
  | _, _ => []
  end.

(** The values of column [c], top to bottom. *)
Definition series (c : string) (df : DataFrame) : list value :=
  concat (map (cells_of c (columns df)) (rows df)).

(** The frame after renaming, dropping the SODA columns and coercing the
    numeric columns. *)
Definition prepared (df : DataFrame) : DataFrame :=
  convert_numeric_columns (select not_soda (rename column_mapping df)).

(** The geometry step on a prepared frame. *)
Definition with_geometry (df : DataFrame) : DataFrame :=
  if has_column "geom" df then map_column "geom" geometry_value df else df.

(** The frame [transform] returns when validation passes. *)
Definition cleaned (self : Transformer) (now : Z) (df : DataFrame) : DataFrame :=
  assign_scalar "ingestion_timestamp" (VTime now)
    (assign_scalar "dataset_id" (VStr (dataset_id self))
       (with_geometry (prepared df))).

(** The log records of one [transform] call. *)
Definition transform_logs (df : DataFrame) : list log_entry :=
  (INFO, "Transforming " +:+ pretty (len df) +:+ " NTA records")
  :: (if has_column "geom" (prepared df)
      then concat (map geometry_warnings (series "geom" (prepared df)))
      else []).

(** A label appended to a list of labels unless it is there already. *)
Definition with_label (c : string) (names : list string) : list string :=
  if bool_decide (c ∈ names) then names else names ++ [c].

(** The column labels of the frame [transform] validates. *)
Definition output_columns (names : list string) : list string :=
  with_label "ingestion_timestamp"
    (with_label "dataset_id"
       (filter (fun c => not_soda c = true) (map (rename_label column_mapping) names))).

End WithExternal.
End Ntas2020.

(** ** [src/ingestion/storage.py]: [DataStorage] *)
Module Storage.
Section WithExternal.
Context `{External}.

Definition nl : string := String (ascii_of_nat 10) "".

(** [n] spaces of indentation inside the triple-quoted SQL templates. *)
Fixpoint spaces (n : nat) : string :=
  match n with
  | O => ""
  | S n' => String " " (spaces n')
  end.

(** [get_engine] *)
Definition get_engine : M string :=
  s <- gets storage ;;
  match engine s with
  | Some e => ret e
  | None =>
      log INFO "Creating database connection" ;;;
      lift (create_engine (connection_string s)) ;;;
      emit (EvCreateEngine (connection_string s)) ;;;
      modify (set_storage (mkStorage (connection_string s)
                                     (Some (connection_string s)))) ;;;
      ret (connection_string s)
  end.

(** The statement of [_update_metadata]. *)
Definition update_sql : string :=
  nl +:+ spaces 8 +:+
  "INSERT INTO dataset_metadata (dataset_id, table_name, last_ingestion, record_count, status)"
  +:+ nl +:+ spaces 8 +:+
  "VALUES (:dataset_id, :table_name, CURRENT_TIMESTAMP, :record_count, 'success')"
  +:+ nl +:+ spaces 8 +:+
  "ON CONFLICT (dataset_id)"
  +:+ nl +:+ spaces 8 +:+
  "DO UPDATE SET"
  +:+ nl +:+ spaces 12 +:+
  "last_ingestion = CURRENT_TIMESTAMP,"
  +:+ nl +:+ spaces 12 +:+
  "record_count = :record_count,"
  +:+ nl +:+ spaces 12 +:+
  "status = 'success';"
  +:+ nl +:+ spaces 8.

(** What [update_sql] does to the [dataset_metadata] table: a new row for an
    unknown [dataset_id]; for a known one only the time stamp, the count and
    the status are overwritten. *)
Definition exec_update_metadata (now : Z) (d : database) (params : dict)
  : result database :=
  match metadata d with
  | None => Raise (Error "relation dataset_metadata does not exist")
  | Some m =>
      match dict_get "dataset_id" params, dict_get "table_name" params,
            dict_get "record_count" params with
      | Some (VStr id), Some (VStr t), Some (VNum n) =>
          let row :=
            match m !! id with
            | None => mkMeta None t now (Qnum n) "success"
            | Some old =>
                mkMeta (m_dataset_name old) (m_table_name old) now (Qnum n) "success"
            end in
          Ok (mkDb (tables d) (Some (<[id := row]> m)))
      | _, _, _ => Raise (Error "invalid statement parameters")
      end
  end.

(** PostgreSQL executing one statement on the connection's view of the
    database: the metadata statement is spelled out, any other statement is
    the database's business. *)
Definition pg_run (now : Z) (d : database) (sql : string) (params : dict)
  : result database :=
  if decide (sql = update_sql) then exec_update_metadata now d params
  else pg_execute d sql params.

(** [with engine.connect() as conn: body].  The connection starts from the
    committed state; leaving the block closes it, and what was not committed
    is gone with it. *)
Definition with_connection {A : Type} (body : M A) : M A :=
  t <- gets trace ;;
  lift (pg_connect t) ;;;
  emit EvConnect ;;;
  d <- gets db ;;
  modify (set_conn (Some d)) ;;;
  try_finally body (modify (set_conn None) ;;; emit EvClose).

(** [conn.execute(text(sql), params)] *)
Definition conn_execute (sql : string) (params : dict) : M unit :=
  c <- gets conn ;;
  match c with
  | None => raise (Error "This Connection is closed")
  | Some tx =>
      emit (EvExecute sql params) ;;;
      now <- gets clock ;;
      tx' <- lift (pg_run now tx sql params) ;;
      modify (set_conn (Some tx'))
  end.

(** [conn.commit()] *)
Definition conn_commit : M unit :=
  c <- gets conn ;;
  match c with
  | None => raise (Error "This Connection is closed")
  | Some tx => modify (set_db tx) ;;; emit EvCommit
  end.

(** The fragment of one column in the CREATE TABLE statement. *)
Definition column_fragment (col_name : string) (col_def : dict) : result string :=
  match dict_get "type" col_def with
  | None => Raise (Error "'type'")
  | Some col_type =>
      let nullable := default (VBool true) (dict_get "nullable" col_def) in
      let default_ := default VNone (dict_get "default" col_def) in
      let primary_key := default (VBool false) (dict_get "primary_key" col_def) in
      let col_str := col_name +:+ " " +:+ py_str col_type in
      let col_str :=
        if truthy primary_key then col_str +:+ " PRIMARY KEY"
        else if negb (truthy nullable) then col_str +:+ " NOT NULL"
        else col_str in
      let col_str :=
        if truthy default_ then col_str +:+ " DEFAULT " +:+ py_str default_
        else col_str in
      Ok col_str
  end.

(** The loop building [columns]. *)
Fixpoint column_fragments (cols : list (string * dict)) : result (list string) :=
  match cols with
  | [] => Ok []
  | (col_name, col_def) :: cols' =>
      match column_fragment col_name col_def with
      | Raise e => Raise e
      | Ok f =>
          match column_fragments cols' with
          | Raise e => Raise e
          | Ok fs => Ok (f :: fs)
          end
      end
  end.

Definition create_table_sql (table : string) (cols : list string) : string :=
  nl +:+ spaces 8 +:+
  "CREATE TABLE IF NOT EXISTS " +:+ table +:+ " ("
  +:+ nl +:+ spaces 12 +:+
  PyStr.join ", " cols
  +:+ nl +:+ spaces 8 +:+
  ");"
  +:+ nl +:+ spaces 8.

Definition create_index_sql (table : string) (ix : IndexSchema) : string :=
  nl +:+ spaces 16 +:+
  "CREATE INDEX IF NOT EXISTS " +:+ index_name ix +:+ " "
  +:+ nl +:+ spaces 16 +:+
  "ON " +:+ table +:+ " (" +:+ PyStr.join ", " (index_columns ix) +:+ ");"
  +:+ nl +:+ spaces 16.

(** [create_table_from_schema] *)
Definition create_table_from_schema (schema : schema_dict) : M unit :=
  get_engine ;;;
  let table := sd_table_name schema in
  log INFO ("Creating table: " +:+ table) ;;;
  cols <- lift (column_fragments (sd_columns schema)) ;;
  let cols := match sd_constraints schema with
              | Some cs => cols ++ cs
              | None => cols
              end in
  with_connection (conn_execute (create_table_sql table cols) [] ;;; conn_commit) ;;;
  match sd_indexes schema with
  | Some ixs =>
      for_each ixs (fun ix =>
        with_connection (conn_execute (create_index_sql table ix) [] ;;; conn_commit))
  | None => ret tt
  end ;;;
  log INFO ("Table " +:+ table +:+ " created/verified with indexes").

(** [_update_metadata] *)
Definition _update_metadata (dataset_id table : string) (record_count : nat) : M unit :=
  get_engine ;;;
  with_connection
    (conn_execute update_sql
       [("dataset_id", VStr dataset_id);
        ("table_name", VStr table);
        ("record_count", VNum (inject_Z (Z.of_nat record_count)))] ;;;
     conn_commit).

(** [df.to_sql(table, engine, if_exists=if_exists, index=False,
    method='multi', chunksize=1000)] *)
Definition to_sql (df : DataFrame) (table if_exists : string) : M unit :=
  emit (EvToSql table if_exists (len df)) ;;;
  d <- gets db ;;
  d' <- lift (pd_to_sql df table if_exists d) ;;
  modify (set_db d').

(** [store_data] *)
Definition store_data (df : DataFrame) (table dataset_id if_exists : string) : M nat :=
  get_engine ;;;
  log INFO ("Storing " +:+ pretty (len df) +:+ " records to table: " +:+ table) ;;;
  try_except
    (to_sql df table if_exists ;;;
     _update_metadata dataset_id table (len df) ;;;
     log INFO ("Successfully stored " +:+ pretty (len df) +:+ " records") ;;;
     ret (len df))
    (fun e =>
       log ERROR ("Failed to store data: " +:+ exn_str e) ;;;
       raise e).

(** The statement built for one record of [upsert_data]. *)
Definition upsert_sql (table : string) (unique_columns : list string) (record : dict)
  : string :=
  let columns := dict_keys record in
  let insert_cols := PyStr.join ", " columns in
  let insert_vals := PyStr.join ", " (map (fun col => ":" +:+ col) columns) in
  let update_cols := filter (fun col => col ∉ unique_columns) columns in
  let update_set :=
    PyStr.join ", " (map (fun col => col +:+ " = EXCLUDED." +:+ col) update_cols) in
  let conflict_cols := PyStr.join ", " unique_columns in
  nl +:+ spaces 20 +:+
  "INSERT INTO " +:+ table +:+ " (" +:+ insert_cols +:+ ")"
  +:+ nl +:+ spaces 20 +:+
  "VALUES (" +:+ insert_vals +:+ ")"
  +:+ nl +:+ spaces 20 +:+
  "ON CONFLICT (" +:+ conflict_cols +:+ ")"
  +:+ nl +:+ spaces 20 +:+
  "DO UPDATE SET " +:+ update_set +:+ ";"
  +:+ nl +:+ spaces 20.

(** The loop over the records, inside the connection block. *)
Definition upsert_rows (table : string) (unique_columns : list string)
  (records : list dict) : M unit :=
  for_each records (fun record =>
    conn_execute (upsert_sql table unique_columns record) record).

(** [upsert_data] *)
Definition upsert_data (df : DataFrame) (table dataset_id : string)
  (unique_columns : list string) : M nat :=
  get_engine ;;;
  log INFO ("Upserting " +:+ pretty (len df) +:+ " records to table: " +:+ table) ;;;
  try_except
    (let records := to_records df in
     with_connection (upsert_rows table unique_columns records ;;; conn_commit) ;;;
     _update_metadata dataset_id table (len df) ;;;
     log INFO ("Successfully upserted " +:+ pretty (len df) +:+ " records") ;;;
     ret (len df))
    (fun e =>
       log ERROR ("Failed to upsert data: " +:+ exn_str e) ;;;
       raise e).

(** [close] *)
Definition close : M unit :=
  s <- gets storage ;;
  match engine s with
  | Some _ => emit EvDispose ;;; log INFO "Database connection closed"
  | None => ret tt
  end.

(** [DataStorage()] *)
Definition init : M unit :=
  url <- lift get_connection_string ;;
  modify (set_storage (mkStorage url None)).


(** *** What the storage operations do to the world, step by step *)

(** The world once [get_engine] has returned. *)
Definition engine_ready (w : world) : world :=
  match engine (storage w) with
  | Some _ => w
  | None =>
      let url := connection_string (storage w) in
      set_storage (mkStorage url (Some url))
        (set_trace (trace w ++ [EvCreateEngine url])
           (set_logs (logs w ++ [(INFO, "Creating database connection")]) w))
  end.

(** The world inside a freshly opened connection block. *)
Definition connected (w : world) : world :=
  set_conn (Some (db w)) (set_trace (trace w ++ [EvConnect]) w).

(** The world after leaving a connection block. *)
Definition disconnected (w : world) : world :=
  set_trace (trace w ++ [EvClose]) (set_conn None w).

(** The statements of [upsert_data], one per record, with their parameters. *)
Definition upsert_statements (table : string) (unique_columns : list string)
  (records : list dict) : list (string * dict) :=
  map (fun record => (upsert_sql table unique_columns record, record)) records.

(** The connection's view after a run of statements, or the first error. *)
Fixpoint execute_all (now : Z) (tx : database) (stmts : list (string * dict))
  : result database :=
  match stmts with
  | [] => Ok tx
  | (sql, params) :: rest =>
      match pg_run now tx sql params with
      | Ok tx' => execute_all now tx' rest
      | Raise e => Raise e
      end
  end.

(** The statements sent to the database: all of them, or those up to and
    including the first one that fails. *)
Fixpoint attempted (now : Z) (tx : database) (stmts : list (string * dict))
  : list (string * dict) :=
  match stmts with
  | [] => []
  | (sql, params) :: rest =>
      (sql, params)
      :: match pg_run now tx sql params with
         | Ok tx' => attempted now tx' rest
         | Raise _ => []
         end
  end.

(** The connection's view after the last statement that succeeded. *)
Fixpoint reached (now : Z) (tx : database) (stmts : list (string * dict)) : database :=
  match stmts with
  | [] => tx
  | (sql, params) :: rest =>
      match pg_run now tx sql params with
      | Ok tx' => reached now tx' rest
      | Raise _ => tx
      end
  end.

Definition execute_events (stmts : list (string * dict)) : list event :=
  map (fun s => EvExecute s.1 s.2) stmts.

(** The parameters [_update_metadata] binds. *)
Definition metadata_params (dataset_id table : string) (record_count : nat) : dict :=
  [("dataset_id", VStr dataset_id);
   ("table_name", VStr table);
   ("record_count", VNum (inject_Z (Z.of_nat record_count)))].

(** The metadata row after a store of [record_count] rows at time [now]. *)
Definition metadata_row (old : option meta_row) (table : string) (now : Z)
  (record_count : nat) : meta_row :=
  match old with
  | None => mkMeta None table now (Z.of_nat record_count) "success"
  | Some o =>
      mkMeta (m_dataset_name o) (m_table_name o) now (Z.of_nat record_count) "success"
  end.

(** The calls of one [_update_metadata]. *)
Definition metadata_events (dataset_id table : string) (record_count : nat)
  : list event :=
  [EvConnect;
   EvExecute update_sql (metadata_params dataset_id table record_count);
   EvCommit;
   EvClose].

End WithExternal.
End Storage.

(** ** [src/api/routes.py]: the food-gaps endpoint *)
Module Routes.
Section WithExternal.
Context `{External}.

Import Storage.

(** The text of the aggregate query. *)
Definition food_gaps_query : string :=
  "" +:+ nl +:+
  "            SELECT json_build_object(" +:+ nl +:+
  "                'type', 'FeatureCollection'," +:+ nl +:+
  "                'features', json_agg(" +:+ nl +:+
  "                    json_build_object(" +:+ nl +:+
  "                        'type', 'Feature'," +:+ nl +:+
  "                        'geometry', ST_AsGeoJSON(n.geom)::json," +:+ nl +:+
  "                        'properties', json_build_object(" +:+ nl +:+
  "                            'nta_code', n.nta2020," +:+ nl +:+
  "                            'nta_name', n.nta_name," +:+ nl +:+
  "                            'boro_name', n.boro_name," +:+ nl +:+
  "                            'supply_gap_lbs', f.supply_gap_lbs," +:+ nl +:+
  "                            'food_insecure_pct', f.food_insecure_pct," +:+ nl +:+
  "                            'vulnerable_pop_score', f.vulnerable_pop_score," +:+ nl +:+
  "                            'unemployment_rate', f.unemployment_rate" +:+ nl +:+
  "                        )" +:+ nl +:+
  "                    )" +:+ nl +:+
  "                )" +:+ nl +:+
  "            ) as geojson" +:+ nl +:+
  "            FROM ntas_2020 n" +:+ nl +:+
  "            LEFT JOIN food_supply_gaps f ON n.nta2020 = f.nta_code" +:+ nl +:+
  "            WHERE f.year = (SELECT MAX(year) FROM food_supply_gaps) -- Get latest data" +:+ nl +:+
  "        ".

(** [conn.execute(query).scalar()] *)
Definition conn_scalar (sql : string) : M value :=
  c <- gets conn ;;
  match c with
  | None => raise (Error "This Connection is closed")
  | Some tx =>
      emit (EvExecute sql []) ;;;
      lift (pg_scalar tx sql)
  end.

(** [get_food_gaps] *)
Definition get_food_gaps : M value :=
  init ;;;
  try_finally
    (try_except
       (get_engine ;;;
        result <- with_connection (conn_scalar food_gaps_query) ;;
        ret result)
       (fun e =>
          log ERROR ("Error fetching food gaps: " +:+ exn_str e) ;;;
          raise (HTTPException 500 (exn_str e))))
    close.


(** What the [try] block of [get_food_gaps] yields: the first failure among
    creating the engine, connecting and running the query, or the value of
    the query. *)
Definition query_outcome (url : string) (w : world) : result value :=
  match create_engine url with
  | Raise e => Raise e
  | Ok _ =>
      match pg_connect (trace w ++ [EvCreateEngine url]) with
      | Raise e => Raise e
      | Ok _ => pg_scalar (db w) food_gaps_query
      end
  end.

(** The response of the endpoint for an outcome of the [try] block. *)
Definition response (outcome : result value) : result value :=
  match outcome with
  | Ok v => Ok v
  | Raise e => Raise (HTTPException 500 (exn_str e))
  end.

End WithExternal.
End Routes.

(** ** A small concrete environment, used to run the definitions

    Library behaviour reduced to what the examples exercise: decimal
    integers parse as numbers, the GeoJSON point converts to WKT, the
    database holds the NTA table keyed by [nta2020]. *)
Module Sample.

(** Decimal digits to a number, most significant first. *)
Fixpoint digits_value (acc : Z) (s : string) : option Z :=
  match s with
  | EmptyString => Some acc
  | String c s' =>
      if PyStr.is_digit c
      then digits_value (10 * acc + (Z.of_nat (PyStr.code c) - 48)) s'
      else None
  end.

Definition sample_to_numeric (v : value) : option Q :=
  match v with
  | VNum q => Some q
  | VBool b => Some (inject_Z (if b then 1 else 0))
  | VStr (String c s') => inject_Z <$> digits_value 0 (String c s')
  | _ => None
  end.

(** [json.loads] on the few texts the examples use. *)
Definition sample_json_loads (s : string) : result value :=
  if decide (s = "{}") then Ok (VDict [])
  else if decide (s = "[]") then Ok (VList [])
  else if decide (s = "null") then Ok VNone
  else Raise (Error "Expecting value: line 1 column 1 (char 0)").

(** [shape(g).wkt] for a GeoJSON point with integer coordinates. *)
Definition sample_shape_wkt (g : value) : result string :=
  match g with
  | VDict [("type", VStr "Point"); ("coordinates", VList [VNum x; VNum y])] =>
      Ok ("POINT (" +:+ pretty (Qnum x) +:+ " " +:+ pretty (Qnum y) +:+ ")")
  | _ => Raise (Error "not a geometry")
  end.

Definition sample_repr (v : value) : string :=
  match v with
  | VNone => "None"
  | VBool true => "True"
  | VBool false => "False"
  | VNum q => pretty (Qnum q)
  | _ => "<object>"
  end.

Definition sample_repr_set (s : gset string) : string :=
  "{" +:+ PyStr.join ", " (map (fun c => "'" +:+ c +:+ "'") (elements s)) +:+ "}".

(** Insert-or-replace of a record in a table keyed by column [key]. *)
Fixpoint upsert_record (key : string) (k : string) (record : dict) (table : list dict)
  : list dict :=
  match table with
  | [] => [record]
  | old :: table' =>
      match dict_get key old with
      | Some (VStr k') =>
          if decide (k' = k) then record :: table'
          else old :: upsert_record key k record table'
      | _ => old :: upsert_record key k record table'
      end
  end.

(** The NTA table accepts the upsert statement of its own columns; its key
    [nta2020] must not be null. *)
Definition sample_pg_execute (d : database) (sql : string) (params : dict)
  : result database :=
  if decide (sql = Storage.upsert_sql "ntas_2020" ["nta2020"] params) then
    match dict_get "nta2020" params with
    | Some (VStr k) =>
        Ok (mkDb (<["ntas_2020" :=
                     upsert_record "nta2020" k params
                       (default [] (tables d !! "ntas_2020"))]> (tables d))
                 (metadata d))
    | _ => Raise (Error "null value in column nta2020 violates not-null constraint")
    end
  else Raise (Error "syntax error").

Definition sample_pg_scalar (d : database) (sql : string) : result value :=
  match tables d !! "food_supply_gaps" with
  | Some _ => Ok (VDict [("type", VStr "FeatureCollection"); ("features", VNone)])
  | None => Raise (Error "relation food_supply_gaps does not exist")
  end.

Definition sample_to_sql (df : DataFrame) (table if_exists : string) (d : database)
  : result database :=
  match tables d !! table with
  | None => Ok (mkDb (<[table := to_records df]> (tables d)) (metadata d))
  | Some old =>
      if decide (if_exists = "fail") then Raise (Error "Table already exists.")
      else if decide (if_exists = "replace")
      then Ok (mkDb (<[table := to_records df]> (tables d)) (metadata d))
      else Ok (mkDb (<[table := old ++ to_records df]> (tables d)) (metadata d))
  end.

#[local] Instance sample_external : External := {|
  to_numeric_scalar := sample_to_numeric;
  json_loads := sample_json_loads;
  shape_wkt := sample_shape_wkt;
  py_repr := sample_repr;
  repr_set := sample_repr_set;
  get_connection_string := Ok "postgresql://localhost/nyc";
  create_engine := fun _ => Ok tt;
  pg_connect := fun _ => Ok tt;
  pg_execute := sample_pg_execute;
  pg_scalar := sample_pg_scalar;
  pd_to_sql := sample_to_sql
|}.

Definition point : value :=
  VDict [("type", VStr "Point"); ("coordinates", VList [VNum 0; VNum 0])].

Definition text_column (required_ : bool) (pk : bool) : ColumnSchema :=
  mkColumn "VARCHAR(255)" true VNone pk required_.

(** A cut-down NTA configuration: [nta2020] is the key, [boro_code] and
    [geom] are required. *)
Definition nta_schema : DataSchema :=
  mkSchema "ntas_2020"
    [("nta2020", mkColumn "VARCHAR(10)" false VNone true false);
     ("boro_code", mkColumn "INTEGER" false VNone false true);
     ("nta_name", text_column false false);
     ("county_fips", text_column false false);
     ("geom", mkColumn "GEOMETRY(MULTIPOLYGON, 4326)" true VNone false true)]
    [mkIndex "idx_ntas_2020_geom" ["geom"]]
    [].

Definition nta : Transformer := mkTransformer "9nt8-h7nd" "2020 NTAs" nta_schema.

Definition empty_db : database := mkDb ∅ (Some ∅).

Definition world0 : world :=
  mkWorld [] 1700000000 empty_db None (mkStorage "" None) [].

(** The scenario of the specification: no [borocode] in the raw table. *)
Definition raw_without_borocode : DataFrame :=
  mkFrame ["countyfips"; "ntaname"; "the_geom"]
          [[VStr "061"; VStr "Upper West Side"; point]].

(** A complete raw table; the cells vary from row to row. *)
Definition raw_full (rows_ : list (list value)) : DataFrame :=
  mkFrame ["nta2020"; "borocode"; "ntaname"; "the_geom"] rows_.

(** A counter column: key, not nullable, default 0. *)
Definition counter_column : dict :=
  [("type", VStr "INTEGER"); ("nullable", VBool false);
   ("default", VNum 0); ("primary_key", VBool true)].


(** A cleaned table of one record. *)
Definition cleaned_one : DataFrame :=
  mkFrame ["nta2020"; "nta_name"] [[VStr "MN03"; VStr "SoHo"]].

(** A world whose NTA table already holds two rows. *)
Definition world_two_rows : world :=
  mkWorld [] 1700000000
    (mkDb {[ "ntas_2020" := [[("nta2020", VStr "MN01"); ("nta_name", VStr "Harlem")];
                            [("nta2020", VStr "MN02"); ("nta_name", VStr "Chelsea")]] ]}
          (Some ∅))
    None (mkStorage "postgresql://localhost/nyc" None) [].

(** One complete, well-formed row. *)
Definition raw_ok : DataFrame :=
  raw_full [[VStr "MN01"; VStr "1"; VStr "Harlem"; point]].

(** A row whose key is null and whose borough code is not a number. *)
Definition raw_null_key : DataFrame :=
  raw_full [[VNone; VStr "abc"; VStr "Harlem"; point]].

(** Three rows without a geometry: empty text, [None], empty dictionary. *)
Definition raw_empty_geometry : DataFrame :=
  raw_full [[VStr "MN01"; VStr "1"; VStr "Harlem"; VStr ""];
            [VStr "MN02"; VStr "1"; VStr "Chelsea"; VNone];
            [VStr "MN03"; VStr "1"; VStr "SoHo"; VDict []]].

(** A row whose geometry is text that is not JSON, and a good row. *)
Definition raw_bad_geometry : DataFrame :=
  raw_full [[VStr "MN01"; VStr "1"; VStr "Harlem"; VStr "POLYGON?"];
            [VStr "MN02"; VStr "1"; VStr "Chelsea"; point]].


End Sample.

(** ** Table creation, statement by statement *)
Module Ddl.
Section WithExternal.
Context `{External}.
Import Storage.

(** The statements [create_table_from_schema] sends for the column fragments
    [cols]: the table, then one per declared index. *)
Definition ddl_statements (schema : schema_dict) (cols : list string)
  : list (string * dict) :=
  (create_table_sql (sd_table_name schema)
     (match sd_constraints schema with
      | Some cs => cols ++ cs
      | None => cols
      end), [])
  :: match sd_indexes schema with
     | Some ixs => map (fun ix => (create_index_sql (sd_table_name schema) ix, [])) ixs
     | None => []
     end.

(** The calls made when every statement runs in a connection of its own and
    is committed there; the run stops at the first statement that fails. *)
Fixpoint own_connection_events (now : Z) (d : database) (stmts : list (string * dict))
  : list event :=
  match stmts with
  | [] => []
  | (sql, params) :: rest =>
      [EvConnect; EvExecute sql params]
      ++ match pg_run now d sql params with
         | Ok d' => [EvCommit; EvClose] ++ own_connection_events now d' rest
         | Raise _ => [EvClose]
         end
  end.

End WithExternal.
End Ddl.

(** ** More sample data *)
Module MoreSamples.

(** A world whose database has no [dataset_metadata] table. *)
Definition world_no_metadata : world :=
  mkWorld [] 1700000000 (mkDb ∅ None) None
          (mkStorage "postgresql://localhost/nyc" None) [].



(** A schema one of whose columns has no type. *)
Definition schema_without_type : schema_dict :=
  mkSchemaDict "broken"
    [("id", [("type", VStr "INTEGER")]); ("name", [("nullable", VBool true)])]
    None None.

(** The sample environment with a connection string SQLAlchemy rejects. *)
Definition offline_external : External := {|
  to_numeric_scalar := Sample.sample_to_numeric;
  json_loads := Sample.sample_json_loads;
  shape_wkt := Sample.sample_shape_wkt;
  py_repr := Sample.sample_repr;
  repr_set := Sample.sample_repr_set;
  get_connection_string := Ok "postgres:/nyc";
  create_engine := fun _ => Raise (Error "Could not parse SQLAlchemy URL");
  pg_connect := fun _ => Ok tt;
  pg_execute := Sample.sample_pg_execute;
  pg_scalar := Sample.sample_pg_scalar;
  pd_to_sql := Sample.sample_to_sql
|}.

End MoreSamples.

(** * Properties *)

(** ** Column-name normalisation *)
Module PyStrFacts.
Import PyStr.












End PyStrFacts.


Example standardize_label_example :
standardize_label "Boro Name (2020)!" = "boro_name_2020"
/\ standardize_label "  NTA   Code " = "_nta_code_".
Proof. split; reflexivity. Qed.

(** ** The world: field updates and computations that only log *)
Module WorldFacts.

Lemma set_logs_same (w : world) : set_logs (logs w) w = w.
Proof. by destruct w. Qed.

Lemma set_logs_nil (w : world) : set_logs (logs w ++ []) w = w.
Proof. rewrite app_nil_r. apply set_logs_same. Qed.

(** Logging twice is logging the concatenation. *)
Lemma set_logs_app (l1 l2 : list log_entry) (w : world) :
  set_logs (logs (set_logs (logs w ++ l1) w) ++ l2) (set_logs (logs w ++ l1) w)
  = set_logs (logs w ++ (l1 ++ l2)) w.
Proof. cbn. by rewrite app_assoc. Qed.

Lemma ret_logs {A : Type} (a : A) (w : world) :
  ret a w = (Ok a, set_logs (logs w ++ []) w).
Proof. by rewrite set_logs_nil. Qed.

Lemma log_logs (l : level) (msg : string) (w : world) :
  log l msg w = (Ok tt, set_logs (logs w ++ [(l, msg)]) w).
Proof. reflexivity. Qed.

Lemma bind_logs {A B : Type} (m : M A) (k : A -> M B) (a : A) (b : B)
  (l1 l2 : list log_entry) :
  (forall w, m w = (Ok a, set_logs (logs w ++ l1) w)) ->
  (forall w, k a w = (Ok b, set_logs (logs w ++ l2) w)) ->
  forall w, bind m k w = (Ok b, set_logs (logs w ++ (l1 ++ l2)) w).
Proof.
  intros Hm Hk w. unfold bind. rewrite Hm, Hk. by rewrite set_logs_app.
Qed.

Lemma apply_cell_logs (c : string) (f : value -> M value) (g : value -> value)
  (lg : value -> list log_entry) :
  (forall v w, f v w = (Ok (g v), set_logs (logs w ++ lg v) w)) ->
  forall names r w,
    apply_cell c f names r w
    = (Ok (map_cell c g names r),
       set_logs (logs w ++ concat (map lg (Ntas2020.cells_of c names r))) w).
Proof.
  intros Hf names. induction names as [|n names IH]; intros r w.
  - destruct r; apply ret_logs.
  - destruct r as [|v r]; [apply ret_logs|].
    cbn [apply_cell map_cell Ntas2020.cells_of].
    destruct (decide (n = c)) as [->|Hne].
    + cbn [map concat].
      apply (bind_logs _ _ (g v) _ (lg v)); [intros; apply Hf|].
      intros w1. rewrite <- (app_nil_r (concat _)).
      eapply bind_logs; [apply IH|intros; apply ret_logs].
    + change (concat (map lg (Ntas2020.cells_of c names r)))
        with ([] ++ concat (map lg (Ntas2020.cells_of c names r))).
      apply (bind_logs _ _ v); [intros; apply ret_logs|].
      intros w1. rewrite <- (app_nil_r (concat _)).
      eapply bind_logs; [apply IH|intros; apply ret_logs].
Qed.

Lemma map_m_logs {A B : Type} (f : A -> M B) (g : A -> B) (lg : A -> list log_entry) :
  (forall x w, f x w = (Ok (g x), set_logs (logs w ++ lg x) w)) ->
  forall xs w,
    map_m f xs w = (Ok (map g xs), set_logs (logs w ++ concat (map lg xs)) w).
Proof.
  intros Hf xs. induction xs as [|x xs IH]; intros w; [apply ret_logs|].
  cbn [map_m map concat].
  apply (bind_logs _ _ (g x) _ (lg x)); [intros; apply Hf|].
  intros w1. rewrite <- (app_nil_r (concat _)).
  eapply bind_logs; [apply IH|intros; apply ret_logs].
Qed.

Lemma apply_column_logs (c : string) (f : value -> M value) (g : value -> value)
  (lg : value -> list log_entry) :
  (forall v w, f v w = (Ok (g v), set_logs (logs w ++ lg v) w)) ->
  forall df w,
    apply_column c f df w
    = (Ok (map_column c g df),
       set_logs (logs w ++ concat (map lg (Ntas2020.series c df))) w).
Proof.
  intros Hf df w. unfold apply_column, Ntas2020.series.
  rewrite <- (app_nil_r (concat (map lg _))).
  eapply bind_logs; [|intros; apply ret_logs].
  intros w1.
  rewrite (map_m_logs _ (map_cell c g (columns df))
             (fun r => concat (map lg (Ntas2020.cells_of c (columns df) r)))
             (apply_cell_logs c f g lg Hf (columns df))).
  do 2 f_equal. f_equal.
  induction (rows df) as [|r rs IH]; [reflexivity|].
  cbn [map concat]. by rewrite map_app, concat_app, IH.
Qed.

End WorldFacts.

(** ** The NTA transformer *)
Module Ntas2020Facts.
Section WithExternal.
Context `{External}.
Import Ntas2020 WorldFacts.

Lemma convert_geometry_run (v : value) (w : world) :
  _convert_geometry v w
  = (Ok (geometry_value v), set_logs (logs w ++ geometry_warnings v) w).
Proof.
  unfold _convert_geometry, geometry_value, geometry_warnings.
  destruct (negb (truthy v)); [apply ret_logs|].
  unfold try_except, bind, lift, ret, geometry_outcome.
  destruct v; try (destruct (shape_wkt _); cbn; by rewrite ?set_logs_nil).
  destruct (json_loads s); cbn; [|done].
  destruct (shape_wkt _); cbn; by rewrite ?set_logs_nil.
Qed.

Lemma geometry_step_run (df : DataFrame) (w : world) :
  (if has_column "geom" df
   then apply_column "geom" _convert_geometry df
   else ret df) w
  = (Ok (with_geometry df),
     set_logs (logs w ++ (if has_column "geom" df
                          then concat (map geometry_warnings (series "geom" df))
                          else [])) w).
Proof.
  unfold with_geometry. destruct (has_column "geom" df).
  - apply apply_column_logs. apply convert_geometry_run.
  - apply ret_logs.
Qed.

(** [transform], with the logger factored out: the log records, then the
    verdict of the required-column validation on the cleaned frame. *)
Lemma transform_run (self : Transformer) (df : DataFrame) (w : world) :
  transform self df w
  = (if decide (missing_columns (columns (cleaned self (clock w) df))
                                (required_cols self) = ∅)
     then Ok (cleaned self (clock w) df)
     else Raise (MissingColumns (dataset_name self)
                   (missing_columns (columns (cleaned self (clock w) df))
                                    (required_cols self))),
     set_logs (logs w ++ transform_logs df) w).
Proof.
  unfold transform, transform_logs. fold (prepared df).
  unfold bind at 1. rewrite log_logs.
  unfold bind at 1. rewrite geometry_step_run. rewrite set_logs_app.
  unfold bind at 1. unfold add_metadata at 1. unfold bind at 1, gets, ret.
  cbn [clock set_logs]. fold (cleaned self (clock w) df).
  unfold validate_required_columns, bind, ret, raise.
  by destruct (decide _).
Qed.

End WithExternal.
End Ntas2020Facts.

(** ** Frames: labels, row counts and cells under each operation *)
Module FrameFacts.

Lemma dict_get_map_cell (c' c : string) (f : value -> value) (names : list string)
  (r : list value) :
  dict_get c (record_of names (map_cell c' f names r))
  = if decide (c' = c) then f <$> dict_get c (record_of names r)
    else dict_get c (record_of names r).
Proof.
  unfold record_of. revert r. induction names as [|n names IH]; intros r.
  - by destruct (decide (c' = c)).
  - destruct r as [|v r]; [by destruct (decide (c' = c))|].
    cbn [map_cell zip zip_with dict_get].
    destruct (decide (n = c)) as [->|Hn].
    + destruct (decide (c = c')) as [->|Hc].
      * by rewrite decide_True.
      * by rewrite decide_False.
    + apply IH.
Qed.

Lemma length_map_cell (c : string) (f : value -> value) (names : list string)
  (r : list value) : length (map_cell c f names r) = length r.
Proof.
  revert r. induction names as [|n names IH]; intros [|v r]; cbn; auto.
Qed.

Lemma dict_get_select (keep : string -> bool) (c : string) (names : list string)
  (r : list value) :
  keep c = true ->
  dict_get c (record_of (filter (fun n => keep n = true) names)
                        (select_cells keep names r))
  = dict_get c (record_of names r).
Proof.
  intros Hc. unfold record_of. revert r.
  induction names as [|n names IH]; intros r; [done|].
  destruct r as [|v r].
  - cbn [select_cells]. by rewrite !zip_with_nil_r.
  - rewrite filter_cons. cbn [select_cells].
    destruct (keep n) eqn:Hn.
    + rewrite decide_True by done. cbn [zip zip_with dict_get].
      destruct (decide (n = c)); [done|apply IH].
    + rewrite decide_False by congruence. cbn [zip zip_with dict_get].
      rewrite decide_False by congruence. apply IH.
Qed.

Lemma length_select_cells (keep : string -> bool) (names : list string)
  (r : list value) :
  length r = length names ->
  length (select_cells keep names r)
  = length (filter (fun n => keep n = true) names).
Proof.
  revert r. induction names as [|n names IH]; intros [|v r] Hlen;
    try done.
  rewrite filter_cons. cbn [select_cells].
  injection Hlen as Hlen. destruct (keep n).
  - rewrite decide_True by done. cbn. by rewrite IH.
  - rewrite decide_False by congruence. by apply IH.
Qed.

Lemma dict_get_snoc_ne (c c' : string) (v : value) (names : list string)
  (r : list value) :
  length r = length names -> c <> c' ->
  dict_get c (record_of (names ++ [c']) (r ++ [v])) = dict_get c (record_of names r).
Proof.
  unfold record_of. revert r.
  induction names as [|n names IH]; intros [|x r] Hlen Hne; try done.
  - cbn. by rewrite decide_False.
  - cbn [app zip zip_with dict_get]. injection Hlen as Hlen.
    destruct (decide (n = c)); [done|by apply IH].
Qed.

Lemma dict_get_snoc_eq (c : string) (v : value) (names : list string)
  (r : list value) :
  length r = length names -> c ∉ names ->
  dict_get c (record_of (names ++ [c]) (r ++ [v])) = Some v.
Proof.
  unfold record_of. revert r.
  induction names as [|n names IH]; intros [|x r] Hlen Hnotin; try done.
  - cbn. by rewrite decide_True.
  - cbn [app zip zip_with dict_get]. injection Hlen as Hlen.
    apply not_elem_of_cons in Hnotin as [Hne Hnotin].
    rewrite decide_False by congruence. by apply IH.
Qed.

Lemma dict_get_present (c : string) (names : list string) (r : list value) :
  length r = length names -> c ∈ names -> is_Some (dict_get c (record_of names r)).
Proof.
  unfold record_of. revert r.
  induction names as [|n names IH]; intros [|x r] Hlen Hin; try done.
  - by apply elem_of_nil in Hin.
  - cbn [zip zip_with dict_get]. injection Hlen as Hlen.
    destruct (decide (n = c)) as [|Hne]; [by eexists|].
    apply elem_of_cons in Hin as [->|Hin]; [done|by apply IH].
Qed.

Lemma dict_get_absent (c : string) (names : list string) (r : list value) :
  c ∉ names -> dict_get c (record_of names r) = None.
Proof.
  unfold record_of. revert r.
  induction names as [|n names IH]; intros [|x r] Hnotin; try done.
  cbn [zip zip_with dict_get].
  apply not_elem_of_cons in Hnotin as [Hne Hnotin].
  rewrite decide_False by congruence. by apply IH.
Qed.

(** *** Cells *)

Lemma cell_map_column (c' c : string) (f : value -> value) (df : DataFrame) (i : nat) :
  cell (map_column c' f df) i c
  = if decide (c' = c) then f <$> cell df i c else cell df i c.
Proof.
  unfold cell, map_column. cbn [rows columns].
  rewrite list_lookup_fmap.
  destruct (rows df !! i) as [r|]; cbn.
  - apply dict_get_map_cell.
  - by destruct (decide (c' = c)).
Qed.

Lemma cell_select (keep : string -> bool) (c : string) (df : DataFrame) (i : nat) :
  keep c = true -> cell (select keep df) i c = cell df i c.
Proof.
  intros Hc. unfold cell, select. cbn [rows columns].
  rewrite list_lookup_fmap.
  destruct (rows df !! i) as [r|]; cbn; [|done].
  by apply dict_get_select.
Qed.

Lemma cell_assign_scalar_ne (c' c : string) (v : value) (df : DataFrame) (i : nat) :
  rectangular df -> c <> c' ->
  cell (assign_scalar c' v df) i c = cell df i c.
Proof.
  intros Hrect Hne. unfold assign_scalar.
  destruct (has_column c' df).
  - rewrite cell_map_column. by rewrite decide_False.
  - unfold cell. cbn [rows columns]. rewrite list_lookup_fmap.
    destruct (rows df !! i) as [r|] eqn:Hr; cbn; [|done].
    apply dict_get_snoc_ne; [|done].
    eapply Forall_lookup_1 in Hrect; [|exact Hr]. done.
Qed.

Lemma cell_assign_scalar_eq (c : string) (v : value) (df : DataFrame) (i : nat) :
  rectangular df -> (i < len df)%nat ->
  cell (assign_scalar c v df) i c = Some v.
Proof.
  intros Hrect Hi. unfold assign_scalar, has_column.
  destruct (lookup_lt_is_Some_2 (rows df) i Hi) as [r Hr].
  pose proof (Forall_lookup_1 _ _ _ _ Hrect Hr) as Hlen. cbn in Hlen.
  case_bool_decide as Hin.
  - rewrite cell_map_column, decide_True by done.
    unfold cell. rewrite Hr. cbn.
    by destruct (dict_get_present c (columns df) r Hlen Hin) as [x ->].
  - unfold cell. cbn [rows columns]. rewrite list_lookup_fmap, Hr. cbn.
    by apply dict_get_snoc_eq.
Qed.

Lemma cell_present (df : DataFrame) (i : nat) (c : string) :
  rectangular df -> (i < len df)%nat -> c ∈ columns df -> is_Some (cell df i c).
Proof.
  intros Hrect Hi Hin.
  destruct (lookup_lt_is_Some_2 (rows df) i Hi) as [r Hr].
  pose proof (Forall_lookup_1 _ _ _ _ Hrect Hr) as Hlen. cbn in Hlen.
  unfold cell. rewrite Hr. cbn. by apply dict_get_present.
Qed.

Lemma cell_column (df : DataFrame) (i : nat) (c : string) (v : value) :
  cell df i c = Some v -> c ∈ columns df.
Proof.
  unfold cell. destruct (rows df !! i) as [r|]; cbn; [|done].
  intros Hget. destruct (decide (c ∈ columns df)) as [|Hnotin]; [done|].
  by rewrite dict_get_absent in Hget.
Qed.

(** *** Labels and shape *)

Lemma columns_assign_scalar (c : string) (v : value) (df : DataFrame) :
  columns (assign_scalar c v df) = Ntas2020.with_label c (columns df).
Proof.
  unfold assign_scalar, Ntas2020.with_label, has_column.
  by case_bool_decide.
Qed.

Lemma len_assign_scalar (c : string) (v : value) (df : DataFrame) :
  len (assign_scalar c v df) = len df.
Proof.
  unfold assign_scalar, len, map_column.
  destruct (has_column c df); cbn [rows]; apply length_map.
Qed.

Lemma rectangular_rename (mapping : list (string * string)) (df : DataFrame) :
  rectangular df -> rectangular (rename mapping df).
Proof.
  unfold rectangular, rename. cbn [rows columns]. intros Hrect.
  eapply Forall_impl; [exact Hrect|].
  intros r Hlen. cbn. by rewrite length_map.
Qed.

Lemma rectangular_select (keep : string -> bool) (df : DataFrame) :
  rectangular df -> rectangular (select keep df).
Proof.
  unfold rectangular. cbn [rows columns]. intros Hrect.
  apply Forall_fmap. eapply Forall_impl; [exact Hrect|].
  intros r Hlen. cbn. by apply length_select_cells.
Qed.

Lemma rectangular_map_column (c : string) (f : value -> value) (df : DataFrame) :
  rectangular df -> rectangular (map_column c f df).
Proof.
  unfold rectangular. cbn [rows columns]. intros Hrect.
  apply Forall_fmap. eapply Forall_impl; [exact Hrect|].
  intros r Hlen. cbn. by rewrite length_map_cell.
Qed.

Lemma rectangular_assign_scalar (c : string) (v : value) (df : DataFrame) :
  rectangular df -> rectangular (assign_scalar c v df).
Proof.
  intros Hrect. unfold assign_scalar. destruct (has_column c df).
  - by apply rectangular_map_column.
  - unfold rectangular in *. cbn [rows columns].
    apply Forall_fmap. eapply Forall_impl; [exact Hrect|].
    intros r Hlen. unfold compose. cbn beta in *.
    rewrite !length_app, Hlen. reflexivity.
Qed.

End FrameFacts.

(** ** The frames between the steps of [transform] *)
Module PipelineFacts.
Section WithExternal.
Context `{External}.
Import Ntas2020 FrameFacts.

Lemma cell_absent_column (df : DataFrame) (i : nat) (c : string) :
  has_column c df = false -> cell df i c = None.
Proof.
  unfold has_column. intros Hc. apply bool_decide_eq_false in Hc.
  destruct (cell df i c) as [v|] eqn:Hcell; [|done].
  by apply cell_column in Hcell.
Qed.

(** One round of the loop over the numeric columns. *)
Lemma cell_numeric_step (col : string) (df : DataFrame) (i : nat) (c : string) :
  cell (if has_column col df then map_column col coerce_numeric df else df) i c
  = if decide (col = c) then coerce_numeric <$> cell df i c else cell df i c.
Proof.
  destruct (has_column col df) eqn:Hcol; [apply cell_map_column|].
  destruct (decide (col = c)) as [<-|]; [|done].
  by rewrite (cell_absent_column df i col Hcol).
Qed.

Lemma columns_numeric_step (col : string) (df : DataFrame) :
  columns (if has_column col df then map_column col coerce_numeric df else df)
  = columns df.
Proof. by destruct (has_column col df). Qed.

Lemma rows_numeric_step (col : string) (df : DataFrame) :
  len (if has_column col df then map_column col coerce_numeric df else df) = len df.
Proof.
  destruct (has_column col df); [|done]. unfold len, map_column. cbn [rows].
  apply length_map.
Qed.

Lemma rectangular_numeric_step (col : string) (df : DataFrame) :
  rectangular df ->
  rectangular (if has_column col df then map_column col coerce_numeric df else df).
Proof.
  destruct (has_column col df); [apply rectangular_map_column|done].
Qed.

Lemma columns_convert_numeric (df : DataFrame) :
  columns (convert_numeric_columns df) = columns df.
Proof.
  unfold convert_numeric_columns, numeric_cols. cbn [fold_left].
  by rewrite !columns_numeric_step.
Qed.

Lemma len_convert_numeric (df : DataFrame) :
  len (convert_numeric_columns df) = len df.
Proof.
  unfold convert_numeric_columns, numeric_cols. cbn [fold_left].
  by rewrite !rows_numeric_step.
Qed.

Lemma rectangular_convert_numeric (df : DataFrame) :
  rectangular df -> rectangular (convert_numeric_columns df).
Proof.
  intros Hrect. unfold convert_numeric_columns, numeric_cols. cbn [fold_left].
  by do 3 apply rectangular_numeric_step.
Qed.

(** The loop coerces the cells of the numeric columns and no other cell. *)
Lemma cell_convert_numeric (df : DataFrame) (i : nat) (c : string) :
  cell (convert_numeric_columns df) i c
  = if bool_decide (c ∈ numeric_cols) then coerce_numeric <$> cell df i c
    else cell df i c.
Proof.
  unfold convert_numeric_columns, numeric_cols. cbn [fold_left].
  rewrite !cell_numeric_step.
  destruct (decide ("shape_area" = c)) as [<-|Ha];
    [by rewrite bool_decide_eq_true_2 by set_solver|].
  destruct (decide ("shape_leng" = c)) as [<-|Hl];
    [by rewrite bool_decide_eq_true_2 by set_solver|].
  destruct (decide ("boro_code" = c)) as [<-|Hb];
    [by rewrite bool_decide_eq_true_2 by set_solver|].
  rewrite bool_decide_eq_false_2; [done|].
  rewrite !elem_of_cons, elem_of_nil. intros [?|[?|[?|[]]]]; congruence.
Qed.

Lemma columns_prepared (df : DataFrame) :
  columns (prepared df)
  = filter (fun c => not_soda c = true)
           (map (rename_label column_mapping) (columns df)).
Proof. unfold prepared. by rewrite columns_convert_numeric. Qed.

Lemma len_prepared (df : DataFrame) : len (prepared df) = len df.
Proof.
  unfold prepared. rewrite len_convert_numeric. unfold len, select, rename.
  cbn [rows]. apply length_map.
Qed.

Lemma rectangular_prepared (df : DataFrame) :
  rectangular df -> rectangular (prepared df).
Proof.
  intros Hrect. unfold prepared.
  by apply rectangular_convert_numeric, rectangular_select, rectangular_rename.
Qed.

Lemma cell_prepared (df : DataFrame) (i : nat) (c : string) :
  not_soda c = true ->
  cell (prepared df) i c
  = if bool_decide (c ∈ numeric_cols)
    then coerce_numeric <$> cell (rename column_mapping df) i c
    else cell (rename column_mapping df) i c.
Proof.
  intros Hc. unfold prepared. rewrite cell_convert_numeric.
  by rewrite (cell_select not_soda c _ i Hc).
Qed.

Lemma columns_with_geometry (df : DataFrame) :
  columns (with_geometry df) = columns df.
Proof. unfold with_geometry. by destruct (has_column "geom" df). Qed.

Lemma len_with_geometry (df : DataFrame) : len (with_geometry df) = len df.
Proof.
  unfold with_geometry. destruct (has_column "geom" df); [|done].
  unfold len, map_column. cbn [rows]. apply length_map.
Qed.

Lemma rectangular_with_geometry (df : DataFrame) :
  rectangular df -> rectangular (with_geometry df).
Proof.
  unfold with_geometry.
  destruct (has_column "geom" df); [apply rectangular_map_column|done].
Qed.

Lemma cell_with_geometry (df : DataFrame) (i : nat) (c : string) :
  cell (with_geometry df) i c
  = if decide ("geom" = c) then geometry_value <$> cell df i c else cell df i c.
Proof.
  unfold with_geometry.
  destruct (has_column "geom" df) eqn:Hcol; [apply cell_map_column|].
  destruct (decide ("geom" = c)) as [<-|]; [|done].
  by rewrite (cell_absent_column df i "geom" Hcol).
Qed.

Lemma columns_cleaned (self : Transformer) (now : Z) (df : DataFrame) :
  columns (cleaned self now df) = output_columns (columns df).
Proof.
  unfold cleaned, output_columns.
  by rewrite !columns_assign_scalar, columns_with_geometry, columns_prepared.
Qed.

Lemma len_cleaned (self : Transformer) (now : Z) (df : DataFrame) :
  len (cleaned self now df) = len df.
Proof.
  unfold cleaned.
  by rewrite !len_assign_scalar, len_with_geometry, len_prepared.
Qed.

Lemma rectangular_cleaned (self : Transformer) (now : Z) (df : DataFrame) :
  rectangular df -> rectangular (cleaned self now df).
Proof.
  intros Hrect. unfold cleaned.
  by do 2 apply rectangular_assign_scalar;
     apply rectangular_with_geometry, rectangular_prepared.
Qed.

(** The metadata step touches the two metadata columns only. *)
Lemma cell_cleaned (self : Transformer) (now : Z) (df : DataFrame) (i : nat)
  (c : string) :
  rectangular df -> c <> "dataset_id" -> c <> "ingestion_timestamp" ->
  cell (cleaned self now df) i c = cell (with_geometry (prepared df)) i c.
Proof.
  intros Hrect Hid Hts. unfold cleaned.
  rewrite cell_assign_scalar_ne; [|apply rectangular_assign_scalar|done].
  - apply cell_assign_scalar_ne; [|done].
    by apply rectangular_with_geometry, rectangular_prepared.
  - by apply rectangular_with_geometry, rectangular_prepared.
Qed.

End WithExternal.
End PipelineFacts.

(** ** Required columns *)
Module RequiredColumns.
Import Ntas2020 Ntas2020Facts PipelineFacts FrameFacts.

Lemma missing_columns_spec (present required : list string) (c : string) :
  c ∈ missing_columns present required <-> c ∈ required /\ c ∉ present.
Proof. unfold missing_columns. set_solver. Qed.

Lemma missing_columns_empty (present required : list string) :
  missing_columns present required = ∅ -> forall c, c ∈ required -> c ∈ present.
Proof.
  intros Hempty c Hc. destruct (decide (c ∈ present)) as [|Hnot]; [done|].
  assert (c ∈ missing_columns present required) as Hin
    by (by apply missing_columns_spec).
  rewrite Hempty in Hin. by apply not_elem_of_empty in Hin.
Qed.

End RequiredColumns.

(** C1 (as amended).  For every rectangular raw table with distinct labels,
    [transform] either raises the validation error, or returns a cleaned
    frame in which every column the configuration marks required or primary
    key has a cell in every row; that cell may be null.  In both cases the
    database and the connection are as before: nothing has been stored. *)
Theorem transform_required_columns_present `{External}
  (self : Transformer) (df : DataFrame) (w : world) :
  NoDup (map (rename_label Ntas2020.column_mapping) (columns df)) ->
  rectangular df ->
  (exists out w',
      Ntas2020.transform self df w = (Ok out, w')
      /\ (forall c i, c ∈ Ntas2020.required_cols self -> (i < len out)%nat ->
                      is_Some (cell out i c))
      /\ db w' = db w /\ conn w' = conn w /\ trace w' = trace w)
  \/ (exists missing w',
      Ntas2020.transform self df w
      = (Raise (MissingColumns (dataset_name self) missing), w')
      /\ missing <> ∅
      /\ db w' = db w /\ conn w' = conn w /\ trace w' = trace w).
Proof.
  intros _ Hrect. rewrite Ntas2020Facts.transform_run.
  destruct (decide _) as [Hempty|Hmissing].
  - left. eexists _, _. split; [reflexivity|]. split; [|done].
    intros c i Hc Hi. apply FrameFacts.cell_present; [|done|].
    + by apply PipelineFacts.rectangular_cleaned.
    + by apply (RequiredColumns.missing_columns_empty _ _ Hempty).
  - right. eexists _, _. split; [reflexivity|]. done.
Qed.

(** C1, witness: the full sample table passes validation. *)
Lemma transform_required_columns_present_witness :
  NoDup (map (rename_label Ntas2020.column_mapping) (columns Sample.raw_ok))
  /\ rectangular Sample.raw_ok
  /\ ((exists out w',
        Ntas2020.transform (H:=Sample.sample_external) Sample.nta Sample.raw_ok
          Sample.world0
        = (Ok out, w')
        /\ (forall c i, c ∈ Ntas2020.required_cols Sample.nta -> (i < len out)%nat ->
                        is_Some (cell out i c))
        /\ db w' = db Sample.world0 /\ conn w' = conn Sample.world0
        /\ trace w' = trace Sample.world0)
      \/ (exists missing w',
        Ntas2020.transform (H:=Sample.sample_external) Sample.nta Sample.raw_ok
          Sample.world0
        = (Raise (MissingColumns (dataset_name Sample.nta) missing), w')
        /\ missing <> ∅
        /\ db w' = db Sample.world0 /\ conn w' = conn Sample.world0
        /\ trace w' = trace Sample.world0)).
Proof.
  assert (NoDup (map (rename_label Ntas2020.column_mapping)
                     (columns Sample.raw_ok))) as Hnodup
    by (apply (bool_decide_unpack _); vm_compute; exact I).
  assert (rectangular Sample.raw_ok) as Hrect
    by (apply (bool_decide_unpack _); vm_compute; exact I).
  split; [exact Hnodup|]. split; [exact Hrect|].
  exact (transform_required_columns_present (H:=Sample.sample_external)
           Sample.nta Sample.raw_ok Sample.world0 Hnodup Hrect).
Defined.

(** C1, counterexample to the claim as stated: the key column [nta2020] of
    the only row is null, [boro_code] does not parse, and [transform]
    returns the row with both required cells null. *)
Lemma transform_required_null_counterexample :
  exists out w',
    Ntas2020.transform (H:=Sample.sample_external) Sample.nta Sample.raw_null_key
      Sample.world0
    = (Ok out, w')
    /\ "nta2020" ∈ Ntas2020.required_cols Sample.nta
    /\ "boro_code" ∈ Ntas2020.required_cols Sample.nta
    /\ cell out 0 "nta2020" = Some VNone
    /\ cell out 0 "boro_code" = Some VNaN
    /\ is_null VNone = true /\ is_null VNaN = true.
Proof.
  eexists _, _. split; [vm_compute; reflexivity|].
  split; [vm_compute; set_solver|]. split; [vm_compute; set_solver|].
  repeat split.
Qed.

(** C2.  When a column the configuration marks required or primary key is
    missing from the labels of the cleaned frame (the raw labels renamed,
    without the SODA columns, with the two metadata columns), [transform]
    raises the validation error carrying the dataset name and exactly the
    set of missing columns, returns no frame, and leaves the database, the
    connection and the driver untouched. *)
Theorem transform_missing_required_raises `{External}
  (self : Transformer) (df : DataFrame) (w : world) :
  NoDup (map (rename_label Ntas2020.column_mapping) (columns df)) ->
  missing_columns (Ntas2020.output_columns (columns df)) (Ntas2020.required_cols self)
  <> ∅ ->
  let missing :=
    missing_columns (Ntas2020.output_columns (columns df))
                    (Ntas2020.required_cols self) in
  exists w',
    Ntas2020.transform self df w
    = (Raise (MissingColumns (dataset_name self) missing), w')
    /\ exn_str (MissingColumns (dataset_name self) missing)
       = "Missing required columns for " +:+ dataset_name self +:+ ": "
         +:+ repr_set missing
    /\ (forall c, c ∈ missing <->
                  c ∈ Ntas2020.required_cols self
                  /\ c ∉ Ntas2020.output_columns (columns df))
    /\ db w' = db w /\ conn w' = conn w /\ trace w' = trace w.
Proof.
  intros _ Hmissing missing. rewrite Ntas2020Facts.transform_run.
  rewrite PipelineFacts.columns_cleaned. fold missing.
  rewrite decide_False by done.
  eexists. split; [reflexivity|]. split; [reflexivity|].
  split; [|done]. intros c. apply RequiredColumns.missing_columns_spec.
Qed.

(** C2, witness: the scenario of the specification, a raw table without
    [borocode] (and without the key). *)
Lemma transform_missing_required_raises_witness :
  NoDup (map (rename_label Ntas2020.column_mapping)
             (columns Sample.raw_without_borocode))
  /\ missing_columns (Ntas2020.output_columns (columns Sample.raw_without_borocode))
                     (Ntas2020.required_cols Sample.nta) <> ∅
  /\ exists w',
      Ntas2020.transform (H:=Sample.sample_external) Sample.nta
        Sample.raw_without_borocode Sample.world0
      = (Raise (MissingColumns "2020 NTAs" {[ "boro_code"; "nta2020" ]}), w').
Proof.
  assert (NoDup (map (rename_label Ntas2020.column_mapping)
                     (columns Sample.raw_without_borocode))) as Hnodup
    by (apply (bool_decide_unpack _); vm_compute; exact I).
  assert (missing_columns (Ntas2020.output_columns (columns Sample.raw_without_borocode))
                          (Ntas2020.required_cols Sample.nta) <> ∅) as Hmissing
    by (apply (bool_decide_unpack _); vm_compute; exact I).
  split; [exact Hnodup|]. split; [exact Hmissing|].
  destruct (transform_missing_required_raises (H:=Sample.sample_external)
              Sample.nta Sample.raw_without_borocode Sample.world0 Hnodup Hmissing)
    as (w' & Hrun & _).
  exists w'. rewrite Hrun. do 2 f_equal.
Defined.

(** ** The geometry payloads of a table, row by row *)
Module SeriesFacts.
Section WithExternal.
Context `{External}.
Import Ntas2020 FrameFacts PipelineFacts.

Lemma cells_of_map_cell (c c' : string) (f : value -> value) (names : list string)
  (r : list value) :
  c <> c' -> cells_of c names (map_cell c' f names r) = cells_of c names r.
Proof.
  intros Hne. revert r. induction names as [|n names IH]; intros [|v r]; try done.
  cbn [map_cell cells_of]. destruct (decide (n = c)) as [->|Hn].
  - rewrite decide_False by done. by rewrite IH.
  - apply IH.
Qed.

Lemma cells_of_select (keep : string -> bool) (c : string) (names : list string)
  (r : list value) :
  keep c = true ->
  cells_of c (filter (fun n => keep n = true) names) (select_cells keep names r)
  = cells_of c names r.
Proof.
  intros Hc. revert r. induction names as [|n names IH]; intros [|v r]; try done.
  - cbn [select_cells cells_of]. by destruct (filter _ (n :: names)).
  - rewrite filter_cons. cbn [select_cells].
    destruct (keep n) eqn:Hn.
    + rewrite decide_True by done. cbn [cells_of].
      destruct (decide (n = c)); by rewrite IH.
    + rewrite decide_False by congruence. cbn [cells_of].
      rewrite decide_False by congruence. apply IH.
Qed.

Lemma series_map_column (c c' : string) (f : value -> value) (df : DataFrame) :
  c <> c' -> series c (map_column c' f df) = series c df.
Proof.
  intros Hne. unfold series, map_column. cbn [rows columns]. f_equal.
  rewrite <- list_fmap_compose. apply list_fmap_ext. intros i r _. cbn.
  by apply cells_of_map_cell.
Qed.

Lemma series_select (keep : string -> bool) (c : string) (df : DataFrame) :
  keep c = true -> series c (select keep df) = series c df.
Proof.
  intros Hc. unfold series, select. cbn [rows columns]. f_equal.
  rewrite <- list_fmap_compose. apply list_fmap_ext. intros i r _. cbn.
  by apply cells_of_select.
Qed.

Lemma series_numeric_step (col : string) (df : DataFrame) :
  col <> "geom" ->
  series "geom" (if has_column col df then map_column col coerce_numeric df else df)
  = series "geom" df.
Proof.
  intros Hne. destruct (has_column col df); [|done].
  by apply series_map_column.
Qed.

(** Renaming aside, the steps before the geometry conversion leave the
    geometry payloads alone. *)
Lemma series_prepared (df : DataFrame) :
  series "geom" (prepared df) = series "geom" (rename column_mapping df).
Proof.
  unfold prepared, convert_numeric_columns, numeric_cols. cbn [fold_left].
  rewrite !series_numeric_step by done.
  by apply series_select.
Qed.

Lemma cells_of_absent (c : string) (names : list string) (r : list value) :
  c ∉ names -> cells_of c names r = [].
Proof.
  revert r. induction names as [|n names IH]; intros [|v r] Hnotin; try done.
  cbn [cells_of]. apply not_elem_of_cons in Hnotin as [Hne Hnotin].
  rewrite decide_False by congruence. by apply IH.
Qed.

Lemma series_absent (c : string) (df : DataFrame) :
  has_column c df = false -> series c df = [].
Proof.
  unfold has_column, series. intros Hc. apply bool_decide_eq_false in Hc.
  induction (rows df) as [|r rs IH]; [done|].
  cbn [map concat]. by rewrite cells_of_absent, IH.
Qed.

(** With distinct labels a row has exactly one cell per column. *)
Lemma cells_of_unique (c : string) (names : list string) (r : list value) :
  NoDup names -> c ∈ names -> length r = length names ->
  exists v, cells_of c names r = [v] /\ dict_get c (record_of names r) = Some v.
Proof.
  unfold record_of. revert r.
  induction names as [|n names IH]; intros [|v r] Hnodup Hin Hlen; try done.
  - by apply elem_of_nil in Hin.
  - apply NoDup_cons in Hnodup as [Hn Hnodup]. injection Hlen as Hlen.
    cbn [cells_of zip zip_with dict_get].
    destruct (decide (n = c)) as [->|Hne].
    + exists v. by rewrite cells_of_absent.
    + apply elem_of_cons in Hin as [->|Hin]; [done|]. by apply IH.
Qed.

Lemma series_lookup (c : string) (df : DataFrame) (i : nat) (v : value) :
  NoDup (columns df) -> rectangular df ->
  cell df i c = Some v -> series c df !! i = Some v.
Proof.
  intros Hnodup Hrect Hcell.
  pose proof (cell_column df i c v Hcell) as Hin.
  unfold cell in Hcell. unfold series, rectangular in *.
  revert i Hcell. induction Hrect as [|r rs Hlen Hrect IH]; intros i Hcell; [done|].
  destruct (cells_of_unique c (columns df) r Hnodup Hin Hlen) as (x & Hx & Hget).
  cbn [map concat]. rewrite Hx. destruct i as [|i].
  - cbn in Hcell. rewrite Hget in Hcell. by injection Hcell as ->.
  - cbn. by apply IH.
Qed.

(** The log of one [transform] call: the opening record, then the warnings
    of the geometry payloads from the first row to the last. *)
Lemma transform_logs_payloads (df : DataFrame) :
  transform_logs df
  = (INFO, "Transforming " +:+ pretty (len df) +:+ " NTA records")
    :: concat (map geometry_warnings (series "geom" (rename column_mapping df))).
Proof.
  unfold transform_logs. f_equal.
  destruct (has_column "geom" (prepared df)) eqn:Hcol.
  - by rewrite series_prepared.
  - by rewrite <- series_prepared, (series_absent "geom" _ Hcol).
Qed.

End WithExternal.
End SeriesFacts.

(** ** Soft failures: geometry and numeric cells *)
Module SoftFail.
Section WithExternal.
Context `{External}.
Import Ntas2020 FrameFacts PipelineFacts.

Lemma not_soda_geom : not_soda "geom" = true.
Proof. reflexivity. Qed.

Lemma cell_cleaned_geom (self : Transformer) (now : Z) (df : DataFrame) (i : nat) :
  rectangular df ->
  cell (cleaned self now df) i "geom"
  = geometry_value <$> cell (rename column_mapping df) i "geom".
Proof.
  intros Hrect. rewrite cell_cleaned by done.
  rewrite cell_with_geometry, decide_True by done.
  by rewrite (cell_prepared df i "geom" not_soda_geom).
Qed.

Lemma cell_cleaned_plain (self : Transformer) (now : Z) (df : DataFrame) (i : nat)
  (c : string) :
  rectangular df ->
  c <> "geom" -> c <> "dataset_id" -> c <> "ingestion_timestamp" ->
  cell (cleaned self now df) i c = cell (prepared df) i c.
Proof.
  intros Hrect Hgeom Hid Hts. rewrite cell_cleaned by done.
  rewrite cell_with_geometry. by rewrite decide_False.
Qed.

Lemma geometry_value_falsy (payload : value) :
  truthy payload = false ->
  geometry_value payload = VNone /\ geometry_warnings payload = [].
Proof.
  intros Hp. unfold geometry_value, geometry_warnings. by rewrite Hp.
Qed.

Lemma geometry_value_failed (payload : value) (e : exn) :
  truthy payload = true -> geometry_outcome payload = Raise e ->
  geometry_value payload = VNone
  /\ geometry_warnings payload
     = [(WARNING, "Failed to convert geometry: " +:+ exn_str e)].
Proof.
  intros Hp He. unfold geometry_value, geometry_warnings. by rewrite Hp, He.
Qed.

Lemma geometry_value_converted (payload : value) (wkt : string) :
  truthy payload = true -> geometry_outcome payload = Ok wkt ->
  geometry_value payload = VWkt wkt 4326 /\ geometry_warnings payload = [].
Proof.
  intros Hp He. unfold geometry_value, geometry_warnings. by rewrite Hp, He.
Qed.

End WithExternal.
End SoftFail.

(** C4 (as amended).  Geometry conversion never aborts [transform]: the only
    exception it can raise is the validation error.  The log grows by the
    opening record and the warnings of the payloads, top to bottom.  In the
    frame returned, the row count is that of the input; cells outside the
    geometry and metadata columns are those of the frame before the geometry
    step; and the geometry cell of a row depends on its own payload only:
    a falsy payload (None, empty text, empty dictionary) gives null and no
    warning, a payload that fails to parse or to convert gives null and one
    warning carrying the error, any other payload gives its WKT element
    tagged 4326. *)
Theorem transform_geometry_soft_fail `{External}
  (self : Transformer) (df : DataFrame) (w : world) :
  NoDup (map (rename_label Ntas2020.column_mapping) (columns df)) ->
  rectangular df ->
  let payloads := Ntas2020.series "geom" (rename Ntas2020.column_mapping df) in
  exists r w',
    Ntas2020.transform self df w = (r, w')
    /\ logs w' = logs w
                 ++ (INFO, "Transforming " +:+ pretty (len df) +:+ " NTA records")
                 :: concat (map Ntas2020.geometry_warnings payloads)
    /\ (forall e, r = Raise e ->
                  exists missing, e = MissingColumns (dataset_name self) missing)
    /\ (forall out, r = Ok out ->
          len out = len df
          /\ (forall i c,
                c <> "geom" -> c <> "dataset_id" -> c <> "ingestion_timestamp" ->
                cell out i c = cell (Ntas2020.prepared df) i c)
          /\ (forall i payload,
                cell (rename Ntas2020.column_mapping df) i "geom" = Some payload ->
                payloads !! i = Some payload
                /\ (truthy payload = false ->
                    cell out i "geom" = Some VNone
                    /\ Ntas2020.geometry_warnings payload = [])
                /\ (forall e,
                      truthy payload = true ->
                      Ntas2020.geometry_outcome payload = Raise e ->
                      cell out i "geom" = Some VNone
                      /\ Ntas2020.geometry_warnings payload
                         = [(WARNING, "Failed to convert geometry: " +:+ exn_str e)])
                /\ (forall wkt,
                      truthy payload = true ->
                      Ntas2020.geometry_outcome payload = Ok wkt ->
                      cell out i "geom" = Some (VWkt wkt 4326)
                      /\ Ntas2020.geometry_warnings payload = []))).
Proof.
  intros Hnodup Hrect payloads. eexists _, _.
  split; [apply Ntas2020Facts.transform_run|].
  split; [cbn [logs set_logs]; by rewrite SeriesFacts.transform_logs_payloads|].
  split.
  - intros exc. destruct (decide _); [done|]. intros [= <-]. by eexists.
  - intros out. destruct (decide _); [|done]. intros [= <-].
    split; [apply PipelineFacts.len_cleaned|].
    split; [intros i c; by apply SoftFail.cell_cleaned_plain|].
    intros i payload Hcell.
    rewrite SoftFail.cell_cleaned_geom, Hcell by done. cbn [fmap option_fmap option_map].
    split.
    { apply SeriesFacts.series_lookup; [done| |done].
      by apply FrameFacts.rectangular_rename. }
    split; [|split].
    + intros Hp. by destruct (SoftFail.geometry_value_falsy payload Hp) as [-> ->].
    + intros exc Hp He.
      by destruct (SoftFail.geometry_value_failed payload exc Hp He) as [-> ->].
    + intros wkt Hp He.
      by destruct (SoftFail.geometry_value_converted payload wkt Hp He) as [-> ->].
Qed.

(** C4, witness: the first row's geometry is not JSON; the batch goes
    through with one warning. *)
Lemma transform_geometry_soft_fail_witness :
  NoDup (map (rename_label Ntas2020.column_mapping)
             (columns Sample.raw_bad_geometry))
  /\ rectangular Sample.raw_bad_geometry
  /\ exists r w',
      Ntas2020.transform (H:=Sample.sample_external) Sample.nta
        Sample.raw_bad_geometry Sample.world0 = (r, w')
      /\ logs w'
         = [(INFO, "Transforming 2 NTA records");
            (WARNING,
             "Failed to convert geometry: Expecting value: line 1 column 1 (char 0)")].
Proof.
  assert (NoDup (map (rename_label Ntas2020.column_mapping)
                     (columns Sample.raw_bad_geometry))) as Hnodup
    by (apply (bool_decide_unpack _); vm_compute; exact I).
  assert (rectangular Sample.raw_bad_geometry) as Hrect
    by (apply (bool_decide_unpack _); vm_compute; exact I).
  split; [exact Hnodup|]. split; [exact Hrect|].
  destruct (transform_geometry_soft_fail (H:=Sample.sample_external)
              Sample.nta Sample.raw_bad_geometry Sample.world0 Hnodup Hrect)
    as (r & w' & Hrun & Hlogs & _).
  exists r, w'. split; [exact Hrun|]. rewrite Hlogs. reflexivity.
Defined.

(** C4, counterexample to the claim as stated: three rows whose geometry
    payload is empty or missing get a null geometry, and no warning is
    recorded for any of them. *)
Lemma transform_empty_geometry_counterexample :
  exists out w',
    Ntas2020.transform (H:=Sample.sample_external) Sample.nta
      Sample.raw_empty_geometry Sample.world0 = (Ok out, w')
    /\ cell (rename Ntas2020.column_mapping Sample.raw_empty_geometry) 0 "geom"
       = Some (VStr "")
    /\ cell (rename Ntas2020.column_mapping Sample.raw_empty_geometry) 1 "geom"
       = Some VNone
    /\ cell (rename Ntas2020.column_mapping Sample.raw_empty_geometry) 2 "geom"
       = Some (VDict [])
    /\ cell out 0 "geom" = Some VNone
    /\ cell out 1 "geom" = Some VNone
    /\ cell out 2 "geom" = Some VNone
    /\ logs w' = [(INFO, "Transforming 3 NTA records")].
Proof.
  eexists _, _. split; [vm_compute; reflexivity|].
  repeat split.
Qed.




(** ** Dictionaries *)
Module DictFacts.

Lemma dict_get_set {A : Type} (k k' : string) (v : A) (d : list (string * A)) :
  dict_get k (dict_set k' v d) = if decide (k' = k) then Some v else dict_get k d.
Proof.
  induction d as [|[k0 v0] d IH]; cbn [dict_set dict_get].
  - by destruct (decide (k' = k)).
  - destruct (decide (k0 = k')) as [->|Hne]; cbn [dict_get].
    + by destruct (decide (k' = k)).
    + destruct (decide (k0 = k)) as [->|Hk].
      * by rewrite decide_False.
      * apply IH.
Qed.

Lemma dict_keys_set {A : Type} (k : string) (v : A) (d : list (string * A)) :
  list_to_set (C:=gset string) (dict_keys (dict_set k v d))
  = {[ k ]} ∪ list_to_set (dict_keys d).
Proof.
  unfold dict_keys. induction d as [|[k0 v0] d IH]; cbn [dict_set].
  - cbn. set_solver.
  - destruct (decide (k0 = k)) as [->|Hne]; cbn [fmap list_fmap fst list_to_set].
    + set_solver.
    + cbn in IH. rewrite IH. set_solver.
Qed.

Lemma dict_get_del {A : Type} (k k' : string) (d : list (string * A)) :
  dict_get k (dict_del k' d) = if decide (k = k') then None else dict_get k d.
Proof.
  induction d as [|[k0 v0] d IH]; cbn [dict_del dict_get].
  - by destruct (decide (k = k')).
  - destruct (decide (k0 = k')) as [->|Hne].
    + rewrite IH. destruct (decide (k = k')) as [->|Hk]; [done|].
      by rewrite decide_False.
    + cbn [dict_get]. destruct (decide (k0 = k)) as [->|Hk].
      * by rewrite decide_False.
      * apply IH.
Qed.

Lemma dict_get_dump (name : string) (cols : list (string * ColumnSchema)) :
  dict_get name (map (fun '(n, c) => (n, dump_column c)) cols)
  = dump_column <$> dict_get name cols.
Proof.
  induction cols as [|[n c] cols IH]; [done|].
  cbn [map dict_get]. by destruct (decide (n = name)).
Qed.

Lemma dict_keys_dump (cols : list (string * ColumnSchema)) :
  dict_keys (map (fun '(n, c) => (n, dump_column c)) cols) = dict_keys cols.
Proof.
  unfold dict_keys. induction cols as [|[n c] cols IH]; [done|].
  cbn. f_equal. apply IH.
Qed.

End DictFacts.

(** C6.  [get_schema] returns the same dictionary whatever the state of the
    world and leaves the world as it is.  Its column mapping is the declared
    mapping with the two metadata definitions set: a lookup finds
    [ingestion_timestamp] (TIMESTAMP, not nullable, default
    CURRENT_TIMESTAMP), [dataset_id] (VARCHAR(20), not nullable), or else
    what the dataset declares, and the keys are the declared ones plus these
    two. *)
Theorem get_schema_columns `{External} (self : Transformer) :
  exists schema,
    (forall w, Ntas2020.get_schema self w = (Ok schema, w))
    /\ sd_table_name schema = table_name (config self)
    /\ (forall name,
          dict_get name (sd_columns schema)
          = if decide ("ingestion_timestamp" = name)
            then Some Ntas2020.ingestion_timestamp_column
            else if decide ("dataset_id" = name)
                 then Some Ntas2020.dataset_id_column
                 else dict_get name (sd_columns (model_dump (config self))))
    /\ list_to_set (C:=gset string) (dict_keys (sd_columns schema))
       = {[ "ingestion_timestamp" ]} ∪ ({[ "dataset_id" ]}
         ∪ list_to_set (dict_keys (schema_columns (config self))))
    /\ Ntas2020.dataset_id_column
       = [("type", VStr "VARCHAR(20)"); ("nullable", VBool false)]
    /\ Ntas2020.ingestion_timestamp_column
       = [("type", VStr "TIMESTAMP"); ("default", VStr "CURRENT_TIMESTAMP");
          ("nullable", VBool false)].
Proof.
  eexists. split; [intros w; reflexivity|]. cbn [sd_table_name sd_columns].
  split; [reflexivity|]. split; [|split; [|done]].
  - intros name. by rewrite !DictFacts.dict_get_set.
  - rewrite !DictFacts.dict_keys_set. cbn [model_dump sd_columns].
    by rewrite DictFacts.dict_keys_dump.
Qed.

(** C10.  In the fragment of a column, the DEFAULT clause is emitted for a
    truthy default only: with a falsy default (0, the empty string, False,
    None) the fragment is the one of the same definition without a default,
    namely the name, the type and the key clause.  A column whose
    [primary_key] is truthy gets PRIMARY KEY and never NOT NULL, whatever
    its [nullable] says. *)
Theorem column_fragment_default_and_primary_key `{External}
  (col_name : string) (col_def : dict) (col_type : value) :
  dict_get "type" col_def = Some col_type ->
  let nullable := default (VBool true) (dict_get "nullable" col_def) in
  let pk := default (VBool false) (dict_get "primary_key" col_def) in
  let dflt := default VNone (dict_get "default" col_def) in
  let base := col_name +:+ " " +:+ py_str col_type in
  (truthy dflt = false ->
     Storage.column_fragment col_name col_def
     = Storage.column_fragment col_name (dict_del "default" col_def)
     /\ Storage.column_fragment col_name col_def
        = Ok (if truthy pk then base +:+ " PRIMARY KEY"
              else if negb (truthy nullable) then base +:+ " NOT NULL"
              else base))
  /\ (truthy pk = true ->
       Storage.column_fragment col_name col_def
       = Ok (if truthy dflt
             then (base +:+ " PRIMARY KEY") +:+ " DEFAULT " +:+ py_str dflt
             else base +:+ " PRIMARY KEY"))
  /\ truthy (VNum 0) = false /\ truthy (VStr "") = false
  /\ truthy (VBool false) = false /\ truthy VNone = false.
Proof.
  intros Htype nullable pk dflt base.
  split; [|split; [|done]].
  - intros Hfalsy. unfold Storage.column_fragment.
    rewrite !DictFacts.dict_get_del. cbn [decide]. rewrite Htype.
    rewrite !decide_False by done. rewrite decide_True by done.
    fold nullable pk dflt base. cbn [default]. rewrite Hfalsy.
    cbn [truthy]. done.
  - intros Hpk. unfold Storage.column_fragment. rewrite Htype.
    fold nullable pk dflt base. by rewrite Hpk.
Qed.

(** ** The storage layer *)
Module StorageFacts.
Section WithExternal.
Context `{External}.
Import Storage.

Lemma bind_ok {A B : Type} (m : M A) (k : A -> M B) (a : A) (w w' : world) :
  m w = (Ok a, w') -> bind m k w = k a w'.
Proof. intros Hm. unfold bind. by rewrite Hm. Qed.

Lemma get_engine_run (w : world) :
  create_engine (connection_string (storage w)) = Ok tt ->
  exists e, get_engine w = (Ok e, engine_ready w).
Proof.
  intros Hcreate. unfold get_engine, engine_ready, bind, gets.
  destruct (engine (storage w)) as [e|]; [by exists e|].
  eexists. unfold log, emit, modify, lift, ret. rewrite Hcreate. reflexivity.
Qed.

Lemma get_engine_failed (w : world) (e : exn) :
  engine (storage w) = None ->
  create_engine (connection_string (storage w)) = Raise e ->
  get_engine w
  = (Raise e, set_logs (logs w ++ [(INFO, "Creating database connection")]) w).
Proof.
  intros Hnone Hcreate. unfold get_engine, bind, gets. rewrite Hnone.
  unfold log, modify, lift. cbn [storage set_logs]. by rewrite Hcreate.
Qed.

Lemma engine_ready_fields (w : world) :
  db (engine_ready w) = db w /\ conn (engine_ready w) = conn w
  /\ clock (engine_ready w) = clock w
  /\ connection_string (storage (engine_ready w)) = connection_string (storage w)
  /\ is_Some (engine (storage (engine_ready w))).
Proof.
  unfold engine_ready. destruct (engine (storage w)) eqn:He; cbn; eauto 10.
Qed.

Lemma with_connection_run {A : Type} (body : M A) (w : world) :
  pg_connect (trace w) = Ok tt ->
  with_connection body w
  = ((body (connected w)).1, disconnected (body (connected w)).2).
Proof.
  intros Hconnect. unfold with_connection, bind, gets, lift, emit, modify, try_finally.
  rewrite Hconnect. cbn [db set_trace]. fold (connected w).
  by destruct (body (connected w)) as [r w2].
Qed.

Lemma with_connection_refused {A : Type} (body : M A) (w : world) (e : exn) :
  pg_connect (trace w) = Raise e -> with_connection body w = (Raise e, w).
Proof.
  intros Hconnect. unfold with_connection, bind, gets, lift. by rewrite Hconnect.
Qed.

Lemma conn_execute_run (sql : string) (params : dict) (w : world) (tx : database) :
  conn w = Some tx ->
  conn_execute sql params w
  = match pg_run (clock w) tx sql params with
    | Ok tx' =>
        (Ok tt, set_conn (Some tx') (set_trace (trace w ++ [EvExecute sql params]) w))
    | Raise e => (Raise e, set_trace (trace w ++ [EvExecute sql params]) w)
    end.
Proof.
  intros Hconn. unfold conn_execute, bind, gets. rewrite Hconn.
  unfold emit, modify, lift. cbn [clock set_trace].
  by destruct (pg_run _ _ _ _).
Qed.

Lemma conn_commit_run (w : world) (tx : database) :
  conn w = Some tx ->
  conn_commit w = (Ok tt, set_trace (trace w ++ [EvCommit]) (set_db tx w)).
Proof. intros Hconn. unfold conn_commit, bind, gets. by rewrite Hconn. Qed.

(** The loop over the records: the statements attempted are on the trace,
    the connection holds the view after the last one that succeeded. *)
Lemma upsert_rows_run (table : string) (unique_columns : list string)
  (records : list dict) (w : world) (tx : database) :
  conn w = Some tx ->
  let stmts := upsert_statements table unique_columns records in
  upsert_rows table unique_columns records w
  = (match execute_all (clock w) tx stmts with
     | Ok _ => Ok tt
     | Raise e => Raise e
     end,
     set_conn (Some (reached (clock w) tx stmts))
       (set_trace (trace w ++ execute_events (attempted (clock w) tx stmts)) w)).
Proof.
  revert w tx. induction records as [|record records IH]; intros w tx Hconn.
  - cbn. rewrite app_nil_r. destruct w. cbn in *. by subst.
  - cbn zeta. unfold upsert_rows. cbn [for_each upsert_statements map].
    cbn [execute_all attempted reached]. unfold bind at 1.
    rewrite (conn_execute_run _ _ w tx Hconn).
    destruct (pg_run (clock w) tx _ record) as [tx'|e].
    + fold (upsert_rows table unique_columns records).
      rewrite (IH _ tx') by done. cbn zeta.
      cbn [clock set_conn set_trace trace]. unfold execute_events.
      cbn [map fst snd]. by rewrite <- app_assoc.
    + unfold execute_events. cbn [map fst snd]. destruct w. cbn in *. by subst.
Qed.

Lemma execute_all_ok (now : Z) (tx d : database) (stmts : list (string * dict)) :
  execute_all now tx stmts = Ok d ->
  reached now tx stmts = d /\ attempted now tx stmts = stmts.
Proof.
  revert tx. induction stmts as [|[sql params] stmts IH]; intros tx; cbn.
  - by intros [= ->].
  - destruct (pg_run now tx sql params) as [tx'|e]; [|done].
    intros Hall. destruct (IH tx' Hall) as [-> ->]. done.
Qed.

(** The connection block of [upsert_data]. *)
Lemma upsert_block_run (table : string) (unique_columns : list string)
  (records : list dict) (w : world) :
  pg_connect (trace w) = Ok tt ->
  let stmts := upsert_statements table unique_columns records in
  with_connection (upsert_rows table unique_columns records ;;; conn_commit) w
  = match execute_all (clock w) (db w) stmts with
    | Ok d =>
        (Ok tt,
         set_conn None
           (set_db d
              (set_trace (trace w ++ [EvConnect] ++ execute_events stmts
                          ++ [EvCommit; EvClose]) w)))
    | Raise e =>
        (Raise e,
         set_conn None
           (set_trace (trace w ++ [EvConnect]
                       ++ execute_events (attempted (clock w) (db w) stmts)
                       ++ [EvClose]) w))
    end.
Proof.
  intros Hconnect stmts. rewrite with_connection_run by done.
  unfold bind. rewrite (upsert_rows_run _ _ _ (connected w) (db w)) by done.
  cbn zeta. fold stmts. cbn [clock connected set_conn set_trace].
  destruct (execute_all (clock w) (db w) stmts) as [d|e] eqn:Hall.
  - destruct (execute_all_ok _ _ _ _ Hall) as [-> ->].
    erewrite conn_commit_run by reflexivity.
    unfold disconnected. destruct w. cbn.
    by rewrite <- !app_assoc.
  - unfold disconnected. destruct w. cbn.
    by rewrite <- !app_assoc.
Qed.

Lemma exec_update_metadata_ok (now : Z) (d : database) (m : gmap string meta_row)
  (dataset_id table : string) (n : nat) :
  metadata d = Some m ->
  exec_update_metadata now d (metadata_params dataset_id table n)
  = Ok (mkDb (tables d)
             (Some (<[dataset_id := metadata_row (m !! dataset_id) table now n]> m))).
Proof.
  intros Hm. unfold exec_update_metadata, metadata_params, metadata_row.
  rewrite Hm. cbn [dict_get].
  repeat (rewrite decide_True by done || rewrite decide_False by done).
  cbn [inject_Z Qnum]. by destruct (m !! dataset_id).
Qed.

Lemma exec_update_metadata_missing (now : Z) (d : database) (params : dict) :
  metadata d = None ->
  exec_update_metadata now d params
  = Raise (Error "relation dataset_metadata does not exist").
Proof. intros Hm. unfold exec_update_metadata. by rewrite Hm. Qed.

(** [_update_metadata] once the engine exists. *)
Lemma update_metadata_run (dataset_id table : string) (n : nat) (w : world) :
  is_Some (engine (storage w)) ->
  pg_connect (trace w) = Ok tt ->
  _update_metadata dataset_id table n w
  = match metadata (db w) with
    | Some m =>
        (Ok tt,
         set_conn None
           (set_db (mkDb (tables (db w))
                      (Some (<[dataset_id :=
                               metadata_row (m !! dataset_id) table (clock w) n]> m)))
              (set_trace (trace w ++ metadata_events dataset_id table n) w)))
    | None =>
        (Raise (Error "relation dataset_metadata does not exist"),
         set_conn None
           (set_trace (trace w ++ [EvConnect;
                         EvExecute update_sql (metadata_params dataset_id table n);
                         EvClose]) w))
    end.
Proof.
  intros [e He] Hconnect. unfold _update_metadata.
  assert (get_engine w = (Ok e, w)) as Hget
    by (unfold get_engine, bind, gets; by rewrite He).
  rewrite (bind_ok _ _ _ _ _ Hget).
  rewrite with_connection_run by done.
  fold (metadata_params dataset_id table n).
  unfold bind. rewrite (conn_execute_run _ _ (connected w) (db w)) by done.
  unfold pg_run. rewrite decide_True by done.
  cbn [clock connected set_conn set_trace].
  destruct (metadata (db w)) as [m|] eqn:Hm.
  - rewrite (exec_update_metadata_ok _ _ m) by done.
    erewrite conn_commit_run by reflexivity.
    unfold disconnected, metadata_events. cbn. destruct w. cbn.
    by rewrite <- !app_assoc.
  - rewrite exec_update_metadata_missing by done.
    unfold disconnected. cbn. destruct w. cbn. by rewrite <- !app_assoc.
Qed.

End WithExternal.
End StorageFacts.

(** ** [upsert_data] and [store_data], end to end *)
Module StoreFacts.
Section WithExternal.
Context `{External}.
Import Storage StorageFacts.

(** [upsert_data]: the outcome of the row statements, then of the metadata
    statement. *)
Lemma upsert_data_run (df : DataFrame) (table dataset_id : string)
  (unique_columns : list string) (w : world) :
  create_engine (connection_string (storage w)) = Ok tt ->
  (forall t, pg_connect t = Ok tt) ->
  let stmts := upsert_statements table unique_columns (to_records df) in
  let w1 := set_logs (logs (engine_ready w)
                      ++ [(INFO, "Upserting " +:+ pretty (len df)
                                 +:+ " records to table: " +:+ table)])
                     (engine_ready w) in
  upsert_data df table dataset_id unique_columns w
  = match execute_all (clock w) (db w) stmts with
    | Raise e =>
        (Raise e,
         set_logs (logs w1 ++ [(ERROR, "Failed to upsert data: " +:+ exn_str e)])
           (set_conn None
              (set_trace (trace w1 ++ [EvConnect]
                          ++ execute_events (attempted (clock w) (db w) stmts)
                          ++ [EvClose]) w1)))
    | Ok d =>
        let w2 :=
          set_conn None
            (set_db d
               (set_trace (trace w1 ++ [EvConnect] ++ execute_events stmts
                           ++ [EvCommit; EvClose]) w1)) in
        match metadata d with
        | Some m =>
            (Ok (len df),
             set_logs (logs w1 ++ [(INFO, "Successfully upserted "
                                          +:+ pretty (len df) +:+ " records")])
               (set_db (mkDb (tables d)
                          (Some (<[dataset_id :=
                                   metadata_row (m !! dataset_id) table (clock w)
                                                (len df)]> m)))
                  (set_trace (trace w2 ++ metadata_events dataset_id table (len df))
                             w2)))
        | None =>
            (Raise (Error "relation dataset_metadata does not exist"),
             set_logs (logs w1
                       ++ [(ERROR, "Failed to upsert data: "
                                   +:+ "relation dataset_metadata does not exist")])
               (set_trace (trace w2
                           ++ [EvConnect;
                               EvExecute update_sql
                                 (metadata_params dataset_id table (len df));
                               EvClose]) w2))
        end
    end.
Proof.
  intros Hcreate Hconnect stmts w1.
  destruct (get_engine_run w Hcreate) as [e Hget].
  destruct (engine_ready_fields w) as (Hdb & Hconn & Hclock & _ & Hengine).
  unfold upsert_data. rewrite (bind_ok _ _ _ _ _ Hget).
  unfold bind at 1. rewrite WorldFacts.log_logs. fold w1.
  unfold try_except. unfold bind at 1.
  rewrite upsert_block_run by apply Hconnect. fold stmts.
  replace (clock w1) with (clock w) by (by rewrite <- Hclock).
  replace (db w1) with (db w) by (by rewrite <- Hdb).
  destruct (execute_all (clock w) (db w) stmts) as [d|exc]; cbn zeta.
  - unfold bind at 1. rewrite update_metadata_run; [|exact Hengine|apply Hconnect].
    cbn [db set_conn set_db set_trace set_logs clock].
    replace (clock w1) with (clock w) by (by rewrite <- Hclock).
    destruct (metadata d) as [m|]; [|reflexivity].
    reflexivity.
  - reflexivity.
Qed.

(** [store_data] when pandas has written the frame. *)
Lemma store_data_run (df : DataFrame) (table dataset_id if_exists : string)
  (w : world) (d : database) :
  create_engine (connection_string (storage w)) = Ok tt ->
  (forall t, pg_connect t = Ok tt) ->
  pd_to_sql df table if_exists (db w) = Ok d ->
  let w1 := set_logs (logs (engine_ready w)
                      ++ [(INFO, "Storing " +:+ pretty (len df)
                                 +:+ " records to table: " +:+ table)])
                     (engine_ready w) in
  let w2 := set_db d (set_trace (trace w1 ++ [EvToSql table if_exists (len df)]) w1) in
  store_data df table dataset_id if_exists w
  = match metadata d with
    | Some m =>
        (Ok (len df),
         set_logs (logs w1 ++ [(INFO, "Successfully stored "
                                      +:+ pretty (len df) +:+ " records")])
           (set_conn None
              (set_db (mkDb (tables d)
                         (Some (<[dataset_id :=
                                  metadata_row (m !! dataset_id) table (clock w)
                                               (len df)]> m)))
                 (set_trace (trace w2 ++ metadata_events dataset_id table (len df))
                            w2))))
    | None =>
        (Raise (Error "relation dataset_metadata does not exist"),
         set_logs (logs w1
                   ++ [(ERROR, "Failed to store data: "
                               +:+ "relation dataset_metadata does not exist")])
           (set_conn None
              (set_trace (trace w2
                          ++ [EvConnect;
                              EvExecute update_sql
                                (metadata_params dataset_id table (len df));
                              EvClose]) w2)))
    end.
Proof.
  intros Hcreate Hconnect Hsql w1 w2.
  destruct (get_engine_run w Hcreate) as [e Hget].
  destruct (engine_ready_fields w) as (Hdb & Hconn & Hclock & _ & Hengine).
  unfold store_data. rewrite (bind_ok _ _ _ _ _ Hget).
  unfold bind at 1. rewrite WorldFacts.log_logs. fold w1.
  unfold try_except. unfold bind at 1.
  assert (to_sql df table if_exists w1 = (Ok tt, w2)) as Hto.
  { unfold to_sql, bind, emit, modify, gets, lift. cbn [db set_trace].
    replace (db w1) with (db w) by (by rewrite <- Hdb). by rewrite Hsql. }
  rewrite Hto. unfold bind at 1.
  rewrite update_metadata_run; [|exact Hengine|apply Hconnect].
  replace (clock w2) with (clock w) by (by rewrite <- Hclock).
  change (db w2) with d.
  destruct (metadata d) as [m|]; reflexivity.
Qed.

End WithExternal.
End StoreFacts.

(** C10, witness: a key column declared not nullable with default 0. *)
Lemma column_fragment_default_and_primary_key_witness :
  dict_get "type" Sample.counter_column = Some (VStr "INTEGER")
  /\ Storage.column_fragment (H:=Sample.sample_external) "id" Sample.counter_column
     = Ok "id INTEGER PRIMARY KEY".
Proof.
  split; [reflexivity|].
  destruct (column_fragment_default_and_primary_key (H:=Sample.sample_external)
              "id" Sample.counter_column (VStr "INTEGER") eq_refl)
    as (Hfalsy & _).
  destruct (Hfalsy eq_refl) as [_ Hfragment].
  rewrite Hfragment. reflexivity.
Defined.

Example column_fragment_examples :
  Storage.column_fragment (H:=Sample.sample_external) "n"
    [("type", VStr "INTEGER"); ("nullable", VBool false); ("default", VNum 0)]
  = Ok "n INTEGER NOT NULL"
  /\ Storage.column_fragment (H:=Sample.sample_external) "n"
       [("type", VStr "INTEGER"); ("nullable", VBool false); ("default", VNum 7)]
     = Ok "n INTEGER NOT NULL DEFAULT 7"
  /\ Storage.column_fragment (H:=Sample.sample_external) "ingestion_timestamp"
       Ntas2020.ingestion_timestamp_column
     = Ok "ingestion_timestamp TIMESTAMP NOT NULL DEFAULT CURRENT_TIMESTAMP".
Proof. repeat split. Qed.







(** ** The food-gaps endpoint *)
Module RoutesFacts.
Section WithExternal.
Context `{External}.
Import Storage Routes.

(** The handler, case by case. *)
Lemma get_food_gaps_run (w : world) (url : string) :
  get_connection_string = Ok url ->
  let w0 := set_storage (mkStorage url None) w in
  let w1 := set_logs (logs w ++ [(INFO, "Creating database connection")]) w0 in
  let failed (e : exn) (w2 : world) : world :=
    set_logs (logs w2 ++ [(ERROR, "Error fetching food gaps: " +:+ exn_str e)]) w2 in
  let closed (w2 : world) : world :=
    set_logs (logs w2 ++ [(INFO, "Database connection closed")])
             (set_trace (trace w2 ++ [EvDispose]) w2) in
  get_food_gaps w
  = match create_engine url with
    | Raise e => (Raise (HTTPException 500 (exn_str e)), failed e w1)
    | Ok _ =>
        match pg_connect (trace w ++ [EvCreateEngine url]) with
        | Raise e =>
            (Raise (HTTPException 500 (exn_str e)),
             closed (failed e (engine_ready w0)))
        | Ok _ =>
            let w2 :=
              disconnected
                (set_trace (trace (connected (engine_ready w0))
                            ++ [EvExecute food_gaps_query []])
                           (connected (engine_ready w0))) in
            match pg_scalar (db w) food_gaps_query with
            | Ok v => (Ok v, closed w2)
            | Raise e =>
                (Raise (HTTPException 500 (exn_str e)), closed (failed e w2))
            end
        end
    end.
Proof.
  intros Hurl w0 w1 failed closed.
  unfold get_food_gaps, init. unfold bind at 1. unfold bind at 1, lift.
  rewrite Hurl. unfold modify at 1. fold w0.
  unfold try_finally, try_except. unfold bind at 1.
  destruct (create_engine url) as [[]|e] eqn:Hcreate.
  - destruct (StorageFacts.get_engine_run w0 Hcreate) as [eng Hget].
    rewrite Hget. unfold bind at 1.
    assert (trace (engine_ready w0) = trace w ++ [EvCreateEngine url]) as Htrace
      by reflexivity.
    destruct (pg_connect (trace w ++ [EvCreateEngine url])) as [[]|e] eqn:Hconnect.
    + rewrite StorageFacts.with_connection_run by (by rewrite Htrace).
      unfold conn_scalar, bind, gets, emit, modify, lift, ret.
      cbn [conn connected set_conn set_trace fst snd].
      change (db (engine_ready w0)) with (db w).
      destruct (pg_scalar (db w) food_gaps_query) as [v|e]; reflexivity.
    + rewrite (StorageFacts.with_connection_refused _ _ e) by (by rewrite Htrace).
      reflexivity.
  - rewrite (StorageFacts.get_engine_failed w0 e) by done. reflexivity.
Qed.

End WithExternal.
End RoutesFacts.

(** C8.  Whatever happens in the [try] block of the handler (creating the
    engine, connecting or running the query may each raise), an exception [e]
    is logged and answered by [HTTPException(500, str(e))], a value is
    returned as it is; the database is unchanged; the connection opened for
    the query is closed; and when an engine was created its disposal by
    [close] is the last call made. *)
Theorem get_food_gaps_outcome `{External} (w : world) (url : string) :
  get_connection_string = Ok url ->
  exists w',
    Routes.get_food_gaps w = (Routes.response (Routes.query_outcome url w), w')
    /\ (forall e, Routes.query_outcome url w = Raise e ->
          Routes.response (Routes.query_outcome url w)
          = Raise (HTTPException 500 (exn_str e))
          /\ (ERROR, "Error fetching food gaps: " +:+ exn_str e) ∈ logs w')
    /\ db w' = db w
    /\ (conn w = None -> conn w' = None)
    /\ (match create_engine url with
        | Raise _ => trace w' = trace w /\ engine (storage w') = None
        | Ok _ =>
            exists calls,
              trace w' = trace w ++ [EvCreateEngine url] ++ calls ++ [EvDispose]
              /\ (calls = []
                  \/ calls = [EvConnect; EvExecute Routes.food_gaps_query []; EvClose])
        end).
Proof.
  intros Hurl. rewrite (RoutesFacts.get_food_gaps_run w url Hurl).
  unfold Routes.query_outcome.
  destruct (create_engine url) as [[]|e1].
  - destruct (pg_connect (trace w ++ [EvCreateEngine url])) as [[]|e2].
    + destruct (pg_scalar (db w) Routes.food_gaps_query) as [v|e3].
      * eexists. split; [reflexivity|]. split; [done|]. split; [reflexivity|].
        split; [done|]. eexists. split; [|by right].
        cbn. rewrite <- !app_assoc. reflexivity.
      * eexists. split; [reflexivity|]. split.
        { intros e [= <-]. split; [reflexivity|]. cbn. set_solver. }
        split; [reflexivity|]. split; [done|]. eexists. split; [|by right].
        cbn. rewrite <- !app_assoc. reflexivity.
    + eexists. split; [reflexivity|]. split.
      { intros e [= <-]. split; [reflexivity|]. cbn. set_solver. }
      split; [reflexivity|]. split; [done|]. exists []. split; [|by left].
      cbn. rewrite <- !app_assoc. reflexivity.
  - eexists. split; [reflexivity|]. split.
    { intros e [= <-]. split; [reflexivity|]. cbn. set_solver. }
    split; [reflexivity|]. split; [done|]. split; reflexivity.
Qed.

(** C8, witness: the gap table does not exist, the query raises. *)
Lemma get_food_gaps_outcome_witness :
  get_connection_string (External:=Sample.sample_external)
  = Ok "postgresql://localhost/nyc"
  /\ exists w',
      Routes.get_food_gaps (H:=Sample.sample_external) Sample.world_two_rows
      = (Raise (HTTPException 500 "relation food_supply_gaps does not exist"), w')
      /\ db w' = db Sample.world_two_rows.
Proof.
  split; [reflexivity|].
  destruct (get_food_gaps_outcome (H:=Sample.sample_external) Sample.world_two_rows
              "postgresql://localhost/nyc" eq_refl)
    as (w' & Hrun & _ & Hdb & _).
  exists w'. split; [exact Hrun|exact Hdb].
Defined.

(** * Further properties of the transformer *)

(** X1.  [add_metadata] never raises and leaves the world alone.  On a
    rectangular frame it keeps the row count, gives every row the
    transformer's [dataset_id] and one and the same time stamp (the clock
    reading of the call), keeps every other cell, and places the two labels
    after the existing ones unless they were there already. *)
Theorem add_metadata_cells (self : Transformer) (df : DataFrame) (w : world) :
  rectangular df ->
  exists out,
    add_metadata self df w = (Ok out, w)
    /\ rectangular out
    /\ len out = len df
    /\ columns out
       = Ntas2020.with_label "ingestion_timestamp"
           (Ntas2020.with_label "dataset_id" (columns df))
    /\ (forall i, (i < len df)%nat ->
          cell out i "dataset_id" = Some (VStr (dataset_id self))
          /\ cell out i "ingestion_timestamp" = Some (VTime (clock w)))
    /\ (forall i c, c <> "dataset_id" -> c <> "ingestion_timestamp" ->
          cell out i c = cell df i c).
Proof.
  intros Hrect. eexists. split; [reflexivity|].
  pose proof (FrameFacts.rectangular_assign_scalar "dataset_id"
                (VStr (dataset_id self)) df Hrect) as Hrect1.
  split; [by apply FrameFacts.rectangular_assign_scalar|].
  split; [by rewrite !FrameFacts.len_assign_scalar|].
  split; [by rewrite !FrameFacts.columns_assign_scalar|].
  split.
  - intros i Hi. split.
    + rewrite FrameFacts.cell_assign_scalar_ne by done.
      by apply FrameFacts.cell_assign_scalar_eq.
    + apply FrameFacts.cell_assign_scalar_eq; [done|].
      by rewrite FrameFacts.len_assign_scalar.
  - intros i c Hid Hts.
    rewrite FrameFacts.cell_assign_scalar_ne by done.
    by apply FrameFacts.cell_assign_scalar_ne.
Qed.

(** X1, witness. *)
Lemma add_metadata_cells_witness :
  rectangular Sample.cleaned_one
  /\ exists out,
      add_metadata Sample.nta Sample.cleaned_one Sample.world0 = (Ok out, Sample.world0)
      /\ columns out = ["nta2020"; "nta_name"; "dataset_id"; "ingestion_timestamp"].
Proof.
  assert (rectangular Sample.cleaned_one) as Hrect
    by (apply (bool_decide_unpack _); vm_compute; exact I).
  split; [exact Hrect|].
  destruct (add_metadata_cells Sample.nta Sample.cleaned_one Sample.world0 Hrect)
    as (out & Hrun & _ & _ & Hcols & _).
  exists out. split; [exact Hrun|]. rewrite Hcols. reflexivity.
Defined.

(** X2.  [validate_required_columns] passes exactly when every required
    label is a label of the frame; otherwise it raises.  Either way the world
    is untouched, and the rows play no part: an empty frame with the right
    labels passes. *)
Theorem validate_required_columns_iff (self : Transformer) (df : DataFrame)
  (required_columns : list string) (w : world) :
  (validate_required_columns self df required_columns w = (Ok tt, w)
   <-> forall c, c ∈ required_columns -> c ∈ columns df)
  /\ (validate_required_columns self df required_columns w = (Ok tt, w)
      \/ validate_required_columns self df required_columns w
         = (Raise (MissingColumns (dataset_name self)
                     (missing_columns (columns df) required_columns)), w))
  /\ validate_required_columns self (mkFrame (columns df) []) required_columns w
     = validate_required_columns self df required_columns w.
Proof.
  unfold validate_required_columns. cbn [columns].
  destruct (decide (missing_columns (columns df) required_columns = ∅))
    as [Hempty|Hmissing].
  - split; [|split; [by left|done]]. split; [|done].
    intros _. by apply RequiredColumns.missing_columns_empty.
  - split; [|split; [by right|done]]. split; [done|].
    intros Hall. exfalso. apply Hmissing. apply set_eq. intros c.
    rewrite RequiredColumns.missing_columns_spec. split; [|set_solver].
    intros [Hc Hnot]. exfalso. by apply Hnot, Hall.
Qed.

(** X3.  [_convert_geometry] never raises.  Its result is [None] or a WKT
    element tagged with SRID 4326; it logs nothing on success and exactly one
    warning when the payload is truthy but cannot be converted; nothing but
    the log changes. *)
Theorem convert_geometry_total `{External} (geom_data : value) (w : world) :
  exists out warnings,
    Ntas2020._convert_geometry geom_data w
    = (Ok out, set_logs (logs w ++ warnings) w)
    /\ (out = VNone \/ exists wkt, out = VWkt wkt 4326)
    /\ ((exists wkt, out = VWkt wkt 4326) -> warnings = [])
    /\ (warnings = [] \/ exists msg, warnings = [(WARNING, msg)])
    /\ (truthy geom_data = false -> out = VNone /\ warnings = []).
Proof.
  eexists _, _. split; [apply Ntas2020Facts.convert_geometry_run|].
  unfold Ntas2020.geometry_value, Ntas2020.geometry_warnings.
  destruct (truthy geom_data); cbn [negb].
  - destruct (Ntas2020.geometry_outcome geom_data) as [wkt|e].
    + split; [right; by eexists|]. split; [done|]. split; [by left|done].
    + split; [by left|]. split; [by intros [wkt ?]|].
      split; [right; by eexists|done].
  - split; [by left|]. split; [done|]. split; [by left|done].
Qed.




(** X6.  Renaming with the NTA column mapping is idempotent: every target
    name is left alone by the mapping, so a table that already carries the
    destination names is renamed to itself. *)
Theorem rename_column_mapping_idempotent (df : DataFrame) :
  rename Ntas2020.column_mapping (rename Ntas2020.column_mapping df)
  = rename Ntas2020.column_mapping df.
Proof.
  assert (forall (m : list (string * string)) c t,
            dict_get c m = Some t -> t ∈ m.*2) as Htarget.
  { intros m c t. induction m as [|[k v] m IH]; [done|]. cbn [dict_get].
    destruct (decide (k = c)).
    - intros [= ->]. cbn. set_solver.
    - intros Hget. cbn. apply elem_of_cons. right. by apply IH. }
  assert (Forall (fun t => rename_label Ntas2020.column_mapping t = t)
                 (Ntas2020.column_mapping.*2)) as Hfixed
    by (apply (bool_decide_unpack _); vm_compute; exact I).
  unfold rename. cbn [columns rows]. f_equal.
  rewrite <- list_fmap_compose. apply list_fmap_ext. intros i c _.
  unfold compose.
  destruct (dict_get c Ntas2020.column_mapping) as [t|] eqn:Hget.
  - assert (rename_label Ntas2020.column_mapping c = t) as ->
      by (unfold rename_label; by rewrite Hget).
    rewrite Forall_forall in Hfixed. by apply Hfixed, (Htarget _ c).
  - assert (rename_label Ntas2020.column_mapping c = c) as Hc
      by (unfold rename_label; by rewrite Hget).
    by rewrite !Hc.
Qed.

(** ** Ordered dictionaries under [d[k] = v] *)
Module DictOrder.

Lemma dict_set_keeps_positions {A : Type} (k : string) (v : A)
  (d : list (string * A)) (i : nat) (k0 : string) (v0 : A) :
  d !! i = Some (k0, v0) -> exists v', dict_set k v d !! i = Some (k0, v').
Proof.
  revert i. induction d as [|[k1 v1] d IH]; intros i Hi; [done|].
  cbn [dict_set]. destruct (decide (k1 = k)) as [->|Hne].
  - destruct i as [|i]; cbn in *; [|by eexists].
    injection Hi as <- _. by eexists.
  - destruct i as [|i]; cbn in *; [by eexists|]. by apply IH.
Qed.

Lemma dict_set_absent {A : Type} (k : string) (v : A) (d : list (string * A)) :
  k ∉ dict_keys d -> dict_set k v d = d ++ [(k, v)].
Proof.
  unfold dict_keys. induction d as [|[k1 v1] d IH]; intros Hk; [done|].
  cbn in Hk. apply not_elem_of_cons in Hk as [Hne Hk].
  cbn [dict_set]. rewrite decide_False by congruence. cbn. by rewrite IH.
Qed.

Lemma elem_of_dict_keys_set {A : Type} (k : string) (v : A) (d : list (string * A))
  (c : string) :
  c ∈ dict_keys (dict_set k v d) <-> c = k \/ c ∈ dict_keys d.
Proof.
  unfold dict_keys. induction d as [|[k1 v1] d IH]; cbn [dict_set].
  - cbn. set_solver.
  - destruct (decide (k1 = k)) as [->|Hne]; cbn; [set_solver|].
    rewrite !elem_of_cons, IH. naive_solver.
Qed.

Lemma dict_set_nodup {A : Type} (k : string) (v : A) (d : list (string * A)) :
  NoDup (dict_keys d) -> NoDup (dict_keys (dict_set k v d)).
Proof.
  induction d as [|[k1 v1] d IH]; intros Hnodup.
  - cbn. apply NoDup_singleton.
  - unfold dict_keys in Hnodup. cbn in Hnodup.
    apply NoDup_cons in Hnodup as [Hk1 Hnodup].
    cbn [dict_set]. destruct (decide (k1 = k)) as [->|Hne].
    + unfold dict_keys. cbn. by apply NoDup_cons.
    + change (NoDup (k1 :: dict_keys (dict_set k v d))).
      apply NoDup_cons. split; [|by apply IH].
      rewrite elem_of_dict_keys_set. intros [->|Hin]; [done|].
      by apply Hk1.
Qed.

End DictOrder.

(** X7.  In the dictionary [get_schema] returns, every declared column keeps
    its position and name, so the DDL column order is the declared one; the
    keys stay distinct; and when the configuration declares neither metadata
    column, the two definitions come last, [dataset_id] before
    [ingestion_timestamp].  A declared column of either name is replaced in
    place. *)
Theorem get_schema_column_order `{External} (self : Transformer) (w : world) :
  NoDup (dict_keys (schema_columns (config self))) ->
  exists schema,
    Ntas2020.get_schema self w = (Ok schema, w)
    /\ NoDup (dict_keys (sd_columns schema))
    /\ (forall i name def,
          sd_columns (model_dump (config self)) !! i = Some (name, def) ->
          exists def', sd_columns schema !! i = Some (name, def'))
    /\ ("dataset_id" ∉ dict_keys (schema_columns (config self)) ->
        "ingestion_timestamp" ∉ dict_keys (schema_columns (config self)) ->
        sd_columns schema
        = sd_columns (model_dump (config self))
          ++ [("dataset_id", Ntas2020.dataset_id_column);
              ("ingestion_timestamp", Ntas2020.ingestion_timestamp_column)]).
Proof.
  intros Hnodup. eexists. split; [reflexivity|]. cbn [sd_columns].
  rewrite <- DictFacts.dict_keys_dump in Hnodup.
  split; [by do 2 apply DictOrder.dict_set_nodup|]. split.
  - intros i name def Hi.
    destruct (DictOrder.dict_set_keeps_positions "dataset_id"
                Ntas2020.dataset_id_column _ i name def Hi) as [def1 Hi1].
    by apply (DictOrder.dict_set_keeps_positions _ _ _ i name def1).
  - intros Hid Hts. rewrite <- DictFacts.dict_keys_dump in Hid, Hts.
    rewrite (DictOrder.dict_set_absent "dataset_id") by done.
    rewrite DictOrder.dict_set_absent; [by rewrite <- app_assoc|].
    unfold dict_keys in *. rewrite fmap_app. cbn.
    rewrite elem_of_app, elem_of_cons, elem_of_nil. by intros [?|[?|[]]].
Qed.

(** X7, witness: the sample configuration declares five columns. *)
Lemma get_schema_column_order_witness :
  NoDup (dict_keys (schema_columns (config Sample.nta)))
  /\ exists schema,
      Ntas2020.get_schema Sample.nta Sample.world0 = (Ok schema, Sample.world0)
      /\ dict_keys (sd_columns schema)
         = ["nta2020"; "boro_code"; "nta_name"; "county_fips"; "geom";
            "dataset_id"; "ingestion_timestamp"].
Proof.
  assert (NoDup (dict_keys (schema_columns (config Sample.nta)))) as Hnodup
    by (apply (bool_decide_unpack _); vm_compute; exact I).
  split; [exact Hnodup|].
  destruct (get_schema_column_order (H:=Sample.sample_external) Sample.nta
              Sample.world0 Hnodup) as (schema & Hrun & _ & _ & Happend).
  exists schema. split; [exact Hrun|].
  rewrite Happend; [reflexivity| |];
    apply (bool_decide_unpack _); vm_compute; exact I.
Defined.


(** * Further properties of the storage layer *)

(** X9.  [get_engine] creates the engine once: after a first successful call
    a second call returns the same engine and changes nothing (no second
    [create_engine], no log record).  The first call itself leaves the
    database and the connection alone and, when the engine already existed,
    the whole world. *)
Theorem get_engine_cached `{External} (w : world) :
  create_engine (connection_string (storage w)) = Ok tt ->
  exists e w1,
    Storage.get_engine w = (Ok e, w1)
    /\ Storage.get_engine w1 = (Ok e, w1)
    /\ db w1 = db w /\ conn w1 = conn w
    /\ (engine (storage w) = None ->
        trace w1 = trace w ++ [EvCreateEngine (connection_string (storage w))])
    /\ (is_Some (engine (storage w)) -> w1 = w).
Proof.
  intros Hcreate. unfold Storage.get_engine at 1. unfold bind, gets.
  destruct (engine (storage w)) as [e|] eqn:He.
  - exists e, w. split; [reflexivity|]. split.
    + unfold Storage.get_engine, bind, gets. by rewrite He.
    + split; [reflexivity|]. split; [reflexivity|]. split; [done|]. done.
  - unfold log, emit, modify, lift, ret. cbn [storage set_logs]. rewrite Hcreate.
    eexists _, _. split; [reflexivity|].
    split; [reflexivity|]. split; [reflexivity|]. split; [reflexivity|].
    split; [done|]. by intros [? ?].
Qed.

(** X9, witness. *)
Lemma get_engine_cached_witness :
  create_engine (External:=Sample.sample_external)
    (connection_string (storage Sample.world_two_rows)) = Ok tt
  /\ exists w1,
      Storage.get_engine (H:=Sample.sample_external) Sample.world_two_rows
      = (Ok "postgresql://localhost/nyc", w1)
      /\ Storage.get_engine (H:=Sample.sample_external) w1
         = (Ok "postgresql://localhost/nyc", w1).
Proof.
  split; [reflexivity|].
  destruct (get_engine_cached (H:=Sample.sample_external) Sample.world_two_rows
              eq_refl) as (e & w1 & Hrun & Hagain & _).
  assert (e = "postgresql://localhost/nyc") as Heq.
  { assert (Ok e = (Storage.get_engine (H:=Sample.sample_external)
                      Sample.world_two_rows).1) as Hfst by (by rewrite Hrun).
    vm_compute in Hfst. by injection Hfst. }
  exists w1. rewrite <- Heq. split; [exact Hrun|exact Hagain].
Defined.

(** X10.  When [create_engine] raises, [get_engine] raises the same error
    after logging its intent, and [self.engine] stays [None], so the next
    call tries again; no driver call is recorded. *)
Theorem get_engine_failure `{External} (w : world) (e : exn) :
  engine (storage w) = None ->
  create_engine (connection_string (storage w)) = Raise e ->
  exists w',
    Storage.get_engine w = (Raise e, w')
    /\ engine (storage w') = None
    /\ trace w' = trace w /\ db w' = db w
    /\ logs w' = logs w ++ [(INFO, "Creating database connection")].
Proof.
  intros Hnone Hcreate. eexists.
  split; [by apply StorageFacts.get_engine_failed|]. cbn. by rewrite Hnone.
Qed.

(** X11.  [close] does nothing at all on a storage without engine.  With an
    engine it disposes it once and logs; it keeps [self.engine], so a later
    [get_engine] hands back that same engine without creating a new one. *)
Theorem close_behaviour `{External} (w : world) :
  (engine (storage w) = None -> Storage.close w = (Ok tt, w))
  /\ (forall e, engine (storage w) = Some e ->
        exists w',
          Storage.close w = (Ok tt, w')
          /\ trace w' = trace w ++ [EvDispose]
          /\ logs w' = logs w ++ [(INFO, "Database connection closed")]
          /\ storage w' = storage w /\ db w' = db w /\ conn w' = conn w
          /\ Storage.get_engine w' = (Ok e, w')).
Proof.
  split.
  - intros Hnone. unfold Storage.close, bind, gets. by rewrite Hnone.
  - intros e He. unfold Storage.close, bind, gets. rewrite He.
    eexists. split; [reflexivity|]. cbn.
    repeat (split; [reflexivity|]).
    unfold Storage.get_engine, bind, gets. cbn. by rewrite He.
Qed.

(** ** Column fragments *)
Module FragmentFacts.
Section WithExternal.
Context `{External}.
Import Storage.

Lemma column_fragment_typed (name : string) (col_def : dict) :
  is_Some (dict_get "type" col_def) ->
  exists f, column_fragment name col_def = Ok f.
Proof.
  intros [t Ht]. unfold column_fragment. rewrite Ht. by eexists.
Qed.

Lemma column_fragment_untyped (name : string) (col_def : dict) :
  dict_get "type" col_def = None ->
  column_fragment name col_def = Raise (Error "'type'").
Proof. intros Ht. unfold column_fragment. by rewrite Ht. Qed.

End WithExternal.
End FragmentFacts.

(** X12.  The loop over the columns succeeds exactly when every column
    definition has a [type]; the first definition without one raises
    [KeyError('type')].  On success there is one fragment per column, in the
    order of the mapping, each the fragment of its own column. *)
Theorem column_fragments_order `{External} (cols : list (string * dict)) :
  ((exists fs, Storage.column_fragments cols = Ok fs)
   <-> Forall (fun c => is_Some (dict_get "type" c.2)) cols)
  /\ (Storage.column_fragments cols = Raise (Error "'type'")
      \/ exists fs, Storage.column_fragments cols = Ok fs)
  /\ (forall fs,
        Storage.column_fragments cols = Ok fs ->
        length fs = length cols
        /\ forall i name col_def,
             cols !! i = Some (name, col_def) ->
             exists f, fs !! i = Some f
                       /\ Storage.column_fragment name col_def = Ok f).
Proof.
  induction cols as [|[name col_def] cols (IHiff & IHcases & IHok)].
  - split; [|split].
    + split; [done|]. by eexists.
    + right. by eexists.
    + intros fs [= <-]. split; [done|]. by intros i ? ? ?.
  - cbn [Storage.column_fragments].
    destruct (dict_get "type" col_def) as [t|] eqn:Ht.
    + destruct (FragmentFacts.column_fragment_typed name col_def) as [f Hf];
        [by rewrite Ht|].
      rewrite Hf.
      destruct (Storage.column_fragments cols) as [fs|e] eqn:Hrest.
      * split; [|split].
        -- split; [|by eexists]. intros _. apply Forall_cons. split.
           ++ cbn. by rewrite Ht.
           ++ apply IHiff. by eexists.
        -- right. by eexists.
        -- intros fs' [= <-]. destruct (IHok fs eq_refl) as [Hlen Hpos].
           split; [cbn; by rewrite Hlen|].
           intros [|i] n0 d0 Hi; cbn in Hi.
           ++ injection Hi as <- <-. by exists f.
           ++ by apply Hpos.
      * split; [|split].
        -- split; [by intros [? ?]|]. intros Hall.
           apply Forall_cons in Hall as [_ Hall].
           apply IHiff in Hall as [fs ?]. done.
        -- destruct IHcases as [->|[fs ?]]; [by left|done].
        -- done.
    + rewrite (FragmentFacts.column_fragment_untyped name col_def Ht).
      split; [|split].
      * split; [by intros [? ?]|]. intros Hall.
        apply Forall_cons in Hall as [[t Hsome] _]. cbn in Hsome. congruence.
      * by left.
      * done.
Qed.

(** ** Statements that run in a connection of their own *)
Module DdlFacts.
Section WithExternal.
Context `{External}.
Import Storage StorageFacts Ddl.

(** One statement, executed and committed in its own connection block. *)
Lemma own_connection_run (sql : string) (params : dict) (w : world) :
  conn w = None ->
  pg_connect (trace w) = Ok tt ->
  with_connection (conn_execute sql params ;;; conn_commit) w
  = match pg_run (clock w) (db w) sql params with
    | Ok d =>
        (Ok tt,
         set_db d (set_trace (trace w ++ [EvConnect; EvExecute sql params;
                                          EvCommit; EvClose]) w))
    | Raise e =>
        (Raise e,
         set_trace (trace w ++ [EvConnect; EvExecute sql params; EvClose]) w)
    end.
Proof.
  intros Hconn Hconnect. rewrite with_connection_run by done.
  unfold bind. rewrite (conn_execute_run _ _ (connected w) (db w)) by done.
  cbn [clock connected set_conn set_trace].
  destruct (pg_run (clock w) (db w) sql params) as [d|e].
  - erewrite conn_commit_run by reflexivity.
    unfold disconnected. destruct w. cbn in *. subst.
    by rewrite <- ?app_assoc.
  - unfold disconnected. destruct w. cbn in *. subst.
    by rewrite <- ?app_assoc.
Qed.

(** A loop of such statements: those before the first failure stay
    committed. *)
Lemma own_connections_run {A : Type} (f : A -> string) (xs : list A) (w : world) :
  conn w = None ->
  (forall t, pg_connect t = Ok tt) ->
  let stmts := map (fun x => (f x, [])) xs in
  for_each xs (fun x => with_connection (conn_execute (f x) [] ;;; conn_commit)) w
  = (match execute_all (clock w) (db w) stmts with
     | Ok _ => Ok tt
     | Raise e => Raise e
     end,
     set_db (reached (clock w) (db w) stmts)
       (set_trace (trace w ++ own_connection_events (clock w) (db w) stmts) w)).
Proof.
  intros Hconn Hconnect. revert w Hconn.
  induction xs as [|x xs IH]; intros w Hconn.
  - cbn. rewrite app_nil_r. by destruct w.
  - cbn zeta. cbn [for_each map execute_all reached own_connection_events].
    unfold bind at 1. rewrite own_connection_run by done.
    destruct (pg_run (clock w) (db w) (f x) []) as [d|e].
    + rewrite IH by done. cbn zeta. cbn [clock db set_db set_trace trace].
      destruct w. cbn. by rewrite <- ?app_assoc.
    + destruct w. cbn. by rewrite <- ?app_assoc.
Qed.

(** [create_table_from_schema] once the fragments are built. *)
Lemma create_table_run (schema : schema_dict) (cols : list string) (w : world) :
  create_engine (connection_string (storage w)) = Ok tt ->
  (forall t, pg_connect t = Ok tt) ->
  conn w = None ->
  column_fragments (sd_columns schema) = Ok cols ->
  let stmts := ddl_statements schema cols in
  let w1 := set_logs (logs (engine_ready w)
                      ++ [(INFO, "Creating table: " +:+ sd_table_name schema)])
                     (engine_ready w) in
  let w2 := set_db (reached (clock w) (db w) stmts)
              (set_trace (trace w1 ++ own_connection_events (clock w) (db w) stmts)
                         w1) in
  create_table_from_schema schema w
  = match execute_all (clock w) (db w) stmts with
    | Ok _ =>
        (Ok tt,
         set_logs (logs w2 ++ [(INFO, "Table " +:+ sd_table_name schema
                                      +:+ " created/verified with indexes")]) w2)
    | Raise e => (Raise e, w2)
    end.
Proof.
  intros Hcreate Hconnect Hconn Hcols stmts w1 w2.
  destruct (get_engine_run w Hcreate) as [e Hget].
  destruct (engine_ready_fields w) as (Hdb & Hconn1 & Hclock & _ & _).
  unfold create_table_from_schema. rewrite (bind_ok _ _ _ _ _ Hget).
  unfold bind at 1. rewrite WorldFacts.log_logs. fold w1.
  unfold bind at 1. unfold lift at 1. rewrite Hcols.
  assert (conn w1 = None) as Hconn2 by (cbn; congruence).
  assert (clock w1 = clock w) as Hclock1 by (cbn; congruence).
  assert (db w1 = db w) as Hdb1 by (cbn; congruence).
  unfold bind at 1. rewrite own_connection_run by done.
  rewrite Hclock1, Hdb1.
  subst w2 stmts. unfold ddl_statements.
  cbn [execute_all reached own_connection_events].
  destruct (pg_run (clock w) (db w) _ []) as [d|exc].
  - unfold bind at 1.
    destruct (sd_indexes schema) as [ixs|].
    + rewrite (own_connections_run (create_index_sql (sd_table_name schema)) ixs)
        by done.
      cbn zeta. cbn [clock db set_db set_trace trace]. rewrite Hclock1.
      destruct (execute_all (clock w) d _) as [d'|exc].
      * destruct w1. cbn. by rewrite <- ?app_assoc.
      * destruct w1. cbn. by rewrite <- ?app_assoc.
    + reflexivity.
  - rewrite <- Hdb1. by destruct w1.
Qed.

Lemma own_connection_events_ok (now : Z) (d d' : database)
  (stmts : list (string * dict)) :
  execute_all now d stmts = Ok d' ->
  own_connection_events now d stmts
  = concat (map (fun s => [EvConnect; EvExecute s.1 s.2; EvCommit; EvClose]) stmts).
Proof.
  revert d. induction stmts as [|[sql params] stmts IH]; intros d; [done|].
  cbn [execute_all own_connection_events map concat fst snd].
  destruct (pg_run now d sql params) as [d1|e]; [|done].
  intros Hall. by rewrite (IH d1 Hall).
Qed.

(** The statements before a failing one have been applied. *)
Lemma reached_prefix (now : Z) (d d1 : database) (pre rest : list (string * dict))
  (sql : string) (params : dict) (e : exn) :
  execute_all now d pre = Ok d1 ->
  pg_run now d1 sql params = Raise e ->
  execute_all now d (pre ++ (sql, params) :: rest) = Raise e
  /\ reached now d (pre ++ (sql, params) :: rest) = d1.
Proof.
  revert d. induction pre as [|[s p] pre IH]; intros d Hpre Hfail.
  - cbn in Hpre. injection Hpre as ->. cbn. by rewrite Hfail.
  - cbn in *. destruct (pg_run now d s p) as [d2|]; [|done]. by apply IH.
Qed.

End WithExternal.
End DdlFacts.

(** X13.  A schema with a column definition that lacks [type] makes
    [create_table_from_schema] raise [KeyError('type')] while it builds the
    fragments: the engine exists and the intent is logged, but no connection
    is opened, no statement is sent and the database is unchanged. *)
Theorem create_table_missing_type `{External} (schema : schema_dict) (w : world) :
  create_engine (connection_string (storage w)) = Ok tt ->
  ~ Forall (fun c => is_Some (dict_get "type" c.2)) (sd_columns schema) ->
  exists w',
    Storage.create_table_from_schema schema w = (Raise (Error "'type'"), w')
    /\ trace w' = trace (Storage.engine_ready w)
    /\ db w' = db w /\ conn w' = conn w
    /\ logs w' = logs (Storage.engine_ready w)
                 ++ [(INFO, "Creating table: " +:+ sd_table_name schema)].
Proof.
  intros Hcreate Hbad.
  destruct (column_fragments_order (sd_columns schema)) as (Hiff & Hcases & _).
  destruct Hcases as [Hraise|Hok]; [|by apply Hiff in Hok].
  destruct (StorageFacts.get_engine_run w Hcreate) as [e Hget].
  destruct (StorageFacts.engine_ready_fields w) as (Hdb & Hconn & _).
  unfold Storage.create_table_from_schema.
  rewrite (StorageFacts.bind_ok _ _ _ _ _ Hget).
  unfold bind at 1. rewrite WorldFacts.log_logs.
  unfold bind at 1. unfold lift at 1. rewrite Hraise.
  eexists. split; [reflexivity|]. by cbn.
Qed.

(** X13, witness. *)
Lemma create_table_missing_type_witness :
  create_engine (External:=Sample.sample_external)
    (connection_string (storage Sample.world_two_rows)) = Ok tt
  /\ ~ Forall (fun c => is_Some (dict_get "type" c.2))
         (sd_columns MoreSamples.schema_without_type)
  /\ exists w',
      Storage.create_table_from_schema (H:=Sample.sample_external)
        MoreSamples.schema_without_type Sample.world_two_rows
      = (Raise (Error "'type'"), w')
      /\ db w' = db Sample.world_two_rows.
Proof.
  assert (~ Forall (fun c => is_Some (dict_get "type" c.2))
            (sd_columns MoreSamples.schema_without_type)) as Hbad.
  { intros Hall. apply Forall_cons in Hall as [_ Hall].
    apply Forall_cons in Hall as [[t Ht] _]. discriminate. }
  split; [reflexivity|]. split; [exact Hbad|].
  destruct (create_table_missing_type (H:=Sample.sample_external)
              MoreSamples.schema_without_type Sample.world_two_rows eq_refl Hbad)
    as (w' & Hrun & _ & Hdb & _).
  exists w'. split; [exact Hrun|exact Hdb].
Defined.

(** X14.  With well-typed columns [create_table_from_schema] sends the
    CREATE TABLE statement and then one CREATE INDEX per declared index, each
    in a connection of its own and each committed by itself.  When all
    succeed the database is the result of all of them.  When one fails its
    error is raised, no later statement is sent, and the statements before it
    stay committed: the call is not atomic. *)
Theorem create_table_statements `{External}
  (schema : schema_dict) (cols : list string) (w : world) :
  create_engine (connection_string (storage w)) = Ok tt ->
  (forall t, pg_connect t = Ok tt) ->
  conn w = None ->
  Storage.column_fragments (sd_columns schema) = Ok cols ->
  let stmts := Ddl.ddl_statements schema cols in
  length stmts = S (length (default [] (sd_indexes schema)))
  /\ exists r w',
      Storage.create_table_from_schema schema w = (r, w')
      /\ conn w' = None
      /\ trace w' = trace (Storage.engine_ready w)
                    ++ Ddl.own_connection_events (clock w) (db w) stmts
      /\ (forall d,
            Storage.execute_all (clock w) (db w) stmts = Ok d ->
            r = Ok tt /\ db w' = d
            /\ Ddl.own_connection_events (clock w) (db w) stmts
               = concat (map (fun s => [EvConnect; EvExecute s.1 s.2;
                                        EvCommit; EvClose]) stmts))
      /\ (forall pre sql params rest d1 e,
            stmts = pre ++ (sql, params) :: rest ->
            Storage.execute_all (clock w) (db w) pre = Ok d1 ->
            Storage.pg_run (clock w) d1 sql params = Raise e ->
            r = Raise e /\ db w' = d1).
Proof.
  intros Hcreate Hconnect Hconn Hcols stmts. split.
  - unfold stmts, Ddl.ddl_statements. cbn [length]. f_equal.
    destruct (sd_indexes schema); [apply length_map|done].
  - rewrite (DdlFacts.create_table_run schema cols w) by done. fold stmts.
    destruct (StorageFacts.engine_ready_fields w) as (_ & Hconn1 & _).
    destruct (Storage.execute_all (clock w) (db w) stmts) as [d|exc] eqn:Hall.
    + eexists _, _. split; [reflexivity|].
      split; [cbn; congruence|]. split; [reflexivity|]. split.
      * intros d' [= <-]. split; [done|].
        split; [cbn; by destruct (StorageFacts.execute_all_ok _ _ _ _ Hall)|].
        by apply (DdlFacts.own_connection_events_ok _ _ d).
      * intros pre sql params rest d1 e Hsplit Hpre Hfail.
        destruct (DdlFacts.reached_prefix (clock w) (db w) d1 pre rest sql params e
                    Hpre Hfail) as [Hraise _].
        rewrite <- Hsplit in Hraise. congruence.
    + eexists _, _. split; [reflexivity|].
      split; [cbn; congruence|]. split; [reflexivity|]. split; [done|].
      intros pre sql params rest d1 e Hsplit Hpre Hfail.
      destruct (DdlFacts.reached_prefix (clock w) (db w) d1 pre rest sql params e
                  Hpre Hfail) as [Hraise Hreached].
      rewrite <- Hsplit in Hraise, Hreached.
      split; [congruence|]. cbn. exact Hreached.
Qed.

(** X14, witness: the sample database refuses DDL, so the table statement of
    the NTA schema fails and nothing is committed. *)
Lemma create_table_statements_witness :
  create_engine (External:=Sample.sample_external)
    (connection_string (storage Sample.world_two_rows)) = Ok tt
  /\ (forall t, pg_connect (External:=Sample.sample_external) t = Ok tt)
  /\ conn Sample.world_two_rows = None
  /\ (exists cols,
        Storage.column_fragments (H:=Sample.sample_external)
          (sd_columns (model_dump Sample.nta_schema)) = Ok cols)
  /\ exists r w',
      Storage.create_table_from_schema (H:=Sample.sample_external)
        (model_dump Sample.nta_schema) Sample.world_two_rows = (r, w')
      /\ conn w' = None.
Proof.
  split; [reflexivity|]. split; [reflexivity|]. split; [reflexivity|].
  split; [eexists; vm_compute; reflexivity|].
  refine (match create_table_statements (H:=Sample.sample_external)
                  (model_dump Sample.nta_schema) _ Sample.world_two_rows
                  eq_refl (fun _ => eq_refl) eq_refl _ with
          | conj _ (ex_intro _ r (ex_intro _ w' (conj Hrun (conj Hconn _)))) =>
              ex_intro _ r (ex_intro _ w' (conj Hrun Hconn))
          end).
  vm_compute. reflexivity.
Defined.

(** X15.  When pandas fails to write the frame, [store_data] logs the error
    and re-raises it unchanged; the metadata statement is never attempted (no
    connection is opened) and the database is as before. *)
Theorem store_data_write_failure `{External}
  (df : DataFrame) (table dataset_id if_exists : string) (w : world) (e : exn) :
  create_engine (connection_string (storage w)) = Ok tt ->
  pd_to_sql df table if_exists (db w) = Raise e ->
  exists w',
    Storage.store_data df table dataset_id if_exists w = (Raise e, w')
    /\ db w' = db w /\ conn w' = conn w
    /\ trace w' = trace (Storage.engine_ready w)
                  ++ [EvToSql table if_exists (len df)]
    /\ logs w' = logs (Storage.engine_ready w)
                 ++ [(INFO, "Storing " +:+ pretty (len df)
                            +:+ " records to table: " +:+ table);
                     (ERROR, "Failed to store data: " +:+ exn_str e)].
Proof.
  intros Hcreate Hsql.
  destruct (StorageFacts.get_engine_run w Hcreate) as [eng Hget].
  destruct (StorageFacts.engine_ready_fields w) as (Hdb & Hconn & _).
  unfold Storage.store_data. rewrite (StorageFacts.bind_ok _ _ _ _ _ Hget).
  unfold bind at 1. rewrite WorldFacts.log_logs.
  unfold try_except, Storage.to_sql.
  unfold bind at 1. unfold bind at 1. unfold emit at 1, modify at 1.
  unfold bind at 1. unfold gets at 1. unfold bind at 1. unfold lift at 1.
  cbn [db set_trace set_logs]. rewrite Hdb, Hsql.
  eexists. split; [reflexivity|]. cbn.
  split; [done|]. split; [done|]. split; [done|]. by rewrite <- app_assoc.
Qed.

(** X15, witness: the table exists and the mode is [fail]. *)
Lemma store_data_write_failure_witness :
  create_engine (External:=Sample.sample_external)
    (connection_string (storage Sample.world_two_rows)) = Ok tt
  /\ pd_to_sql (External:=Sample.sample_external) Sample.cleaned_one "ntas_2020"
       "fail" (db Sample.world_two_rows) = Raise (Error "Table already exists.")
  /\ exists w',
      Storage.store_data (H:=Sample.sample_external) Sample.cleaned_one
        "ntas_2020" "9nt8-h7nd" "fail" Sample.world_two_rows
      = (Raise (Error "Table already exists."), w')
      /\ db w' = db Sample.world_two_rows.
Proof.
  assert (pd_to_sql (External:=Sample.sample_external) Sample.cleaned_one
            "ntas_2020" "fail" (db Sample.world_two_rows)
          = Raise (Error "Table already exists.")) as Hsql
    by (vm_compute; reflexivity).
  split; [reflexivity|]. split; [exact Hsql|].
  destruct (store_data_write_failure (H:=Sample.sample_external)
              Sample.cleaned_one "ntas_2020" "9nt8-h7nd" "fail"
              Sample.world_two_rows _ eq_refl Hsql) as (w' & Hrun & Hdb & _).
  exists w'. split; [exact Hrun|exact Hdb].
Defined.

(** X16.  When the frame has been written but the [dataset_metadata] table
    does not exist, [store_data] raises the database error of the metadata
    statement, and the rows pandas wrote stay in the database: the write and
    the metadata update are not one transaction. *)
Theorem store_data_without_metadata_table `{External}
  (df : DataFrame) (table dataset_id if_exists : string) (w : world) (d : database) :
  create_engine (connection_string (storage w)) = Ok tt ->
  (forall t, pg_connect t = Ok tt) ->
  pd_to_sql df table if_exists (db w) = Ok d ->
  metadata d = None ->
  exists w',
    Storage.store_data df table dataset_id if_exists w
    = (Raise (Error "relation dataset_metadata does not exist"), w')
    /\ db w' = d /\ conn w' = None
    /\ trace w' = trace (Storage.engine_ready w)
                  ++ [EvToSql table if_exists (len df);
                      EvConnect;
                      EvExecute Storage.update_sql
                        (Storage.metadata_params dataset_id table (len df));
                      EvClose].
Proof.
  intros Hcreate Hconnect Hsql Hmeta.
  rewrite (StoreFacts.store_data_run df table dataset_id if_exists w d) by done.
  rewrite Hmeta. eexists. split; [reflexivity|]. cbn.
  split; [done|]. split; [done|]. by rewrite <- app_assoc.
Qed.

(** X16, witness. *)
Lemma store_data_without_metadata_table_witness :
  create_engine (External:=Sample.sample_external)
    (connection_string (storage MoreSamples.world_no_metadata)) = Ok tt
  /\ (forall t, pg_connect (External:=Sample.sample_external) t = Ok tt)
  /\ exists w' stored,
      Storage.store_data (H:=Sample.sample_external) Sample.cleaned_one
        "ntas_2020" "9nt8-h7nd" "append" MoreSamples.world_no_metadata
      = (Raise (Error "relation dataset_metadata does not exist"), w')
      /\ tables (db w') !! "ntas_2020" = Some stored
      /\ length stored = 1%nat.
Proof.
  split; [reflexivity|]. split; [reflexivity|].
  destruct (store_data_without_metadata_table (H:=Sample.sample_external)
              Sample.cleaned_one "ntas_2020" "9nt8-h7nd" "append"
              MoreSamples.world_no_metadata _ eq_refl (fun _ => eq_refl)
              eq_refl eq_refl) as (w' & Hrun & Hdb & _).
  exists w'. eexists. split; [exact Hrun|]. rewrite Hdb.
  split; [vm_compute; reflexivity|reflexivity].
Defined.







(** X20.  When all row statements of [upsert_data] succeed but the
    [dataset_metadata] table does not exist, the rows have already been
    committed when the metadata statement fails: the call raises, and the
    database holds the upserted rows. *)
Theorem upsert_data_without_metadata_table `{External}
  (df : DataFrame) (table dataset_id : string) (unique_columns : list string)
  (w : world) (d : database) :
  create_engine (connection_string (storage w)) = Ok tt ->
  (forall t, pg_connect t = Ok tt) ->
  Storage.execute_all (clock w) (db w)
    (Storage.upsert_statements table unique_columns (to_records df)) = Ok d ->
  metadata d = None ->
  exists w',
    Storage.upsert_data df table dataset_id unique_columns w
    = (Raise (Error "relation dataset_metadata does not exist"), w')
    /\ db w' = d /\ conn w' = None
    /\ last (logs w')
       = Some (ERROR, "Failed to upsert data: "
                      +:+ "relation dataset_metadata does not exist").
Proof.
  intros Hcreate Hconnect Hall Hmeta.
  rewrite StoreFacts.upsert_data_run by done.
  rewrite Hall. cbn zeta. rewrite Hmeta.
  eexists. split; [reflexivity|]. cbn.
  split; [done|]. split; [done|]. by rewrite last_snoc.
Qed.

(** X20, witness. *)
Lemma upsert_data_without_metadata_table_witness :
  create_engine (External:=Sample.sample_external)
    (connection_string (storage MoreSamples.world_no_metadata)) = Ok tt
  /\ (forall t, pg_connect (External:=Sample.sample_external) t = Ok tt)
  /\ exists w' stored,
      Storage.upsert_data (H:=Sample.sample_external) Sample.cleaned_one
        "ntas_2020" "9nt8-h7nd" ["nta2020"] MoreSamples.world_no_metadata
      = (Raise (Error "relation dataset_metadata does not exist"), w')
      /\ tables (db w') !! "ntas_2020" = Some stored
      /\ length stored = 1%nat.
Proof.
  split; [reflexivity|]. split; [reflexivity|].
  destruct (upsert_data_without_metadata_table (H:=Sample.sample_external)
              Sample.cleaned_one "ntas_2020" "9nt8-h7nd" ["nta2020"]
              MoreSamples.world_no_metadata _ eq_refl (fun _ => eq_refl)
              eq_refl eq_refl) as (w' & Hrun & Hdb & _).
  exists w'. eexists. split; [exact Hrun|]. rewrite Hdb.
  split; [vm_compute; reflexivity|reflexivity].
Defined.

(** X10, witness: the connection string cannot be parsed. *)
Lemma get_engine_failure_witness :
  engine (storage Sample.world0) = None
  /\ create_engine (External:=MoreSamples.offline_external)
       (connection_string (storage Sample.world0))
     = Raise (Error "Could not parse SQLAlchemy URL")
  /\ exists w',
      Storage.get_engine (H:=MoreSamples.offline_external) Sample.world0
      = (Raise (Error "Could not parse SQLAlchemy URL"), w')
      /\ engine (storage w') = None /\ trace w' = trace Sample.world0.
Proof.
  split; [reflexivity|]. split; [reflexivity|].
  destruct (get_engine_failure (H:=MoreSamples.offline_external) Sample.world0
              (Error "Could not parse SQLAlchemy URL") eq_refl eq_refl)
    as (w' & Hrun & Hengine & Htrace & _).
  exists w'. split; [exact Hrun|]. split; [exact Hengine|exact Htrace].
Defined.
